(** * Next.js data fetching snippets: Pages Router vs App Router

    A shallow embedding of the eight example modules of the repository
    (SSG, SSR, ISR and CSR, each for the Pages Router and the App Router)
    together with the small part of the JavaScript, fetch and React
    contracts they rely on.

    Source files:
    - [src/app/blogs/page.jsx]   (getBlogs, BlogsPage)
    - [src/pages/blogs.js]       (getStaticProps, Blogs; getServerSideProps, News)
    - [src/unnamed/part_000]     (ISR getStaticProps; Profile)
    - [src/unnamed/part_001]     (ProfilePage; getPosts, PostsPage; getNews, NewsPage) *)

From Stdlib Require Import ZArith Floats.
From stdpp Require Import base gmap list strings.

Set Warnings "-register-all".
Local Open Scope string_scope.
Local Open Scope list_scope.
Local Open Scope Z_scope.

(** ** JavaScript values

    What [res.json()] can produce, plus [undefined].  Numbers are IEEE
    doubles, objects are finite maps from property names to values. *)

Inductive value : Type :=
| Undefined
| Null
| Bool (b : bool)
| Num (x : float)
| Str (s : string)
| Arr (items : list value)
| Obj (fields : gmap string value).

(** Exceptions.  An engine-raised [TypeError] is tagged with the property
    whose read or call failed, taking the reads of a JSX element in the
    order they are written (engines word their messages differently);
    errors coming from the network carry whatever text the environment
    gives them. *)
Inductive exn : Type :=
| TypeError (what : string)
| SyntaxError (what : string)
| AbortError (what : string).

(** A completion is either a normal value or a thrown exception (for an
    async function: a fulfilled or a rejected promise). *)
Inductive completion (A : Type) : Type :=
| Normal (a : A)
| Throw (e : exn).
Arguments Normal {A} a.
Arguments Throw {A} e.

#[global] Instance completion_ret : MRet completion := λ A a, Normal a.
#[global] Instance completion_bind : MBind completion := λ A B f m,
  match m with
  | Normal a => f a
  | Throw e => Throw e
  end.

(** [ToBoolean]: the test behind [if (!user)]. *)
Definition truthy (v : value) : bool :=
  match v with
  | Undefined | Null => false
  | Bool b => b
  | Num x => negb (PrimFloat.is_zero x || PrimFloat.is_nan x)
  | Str s => negb (String.eqb s "")
  | Arr _ | Obj _ => true
  end.

Definition nullish (v : value) : bool :=
  match v with
  | Undefined | Null => true
  | _ => false
  end.

(** [Object.is], used by React to compare hook dependencies and states.
    Objects and arrays are compared by identity in JavaScript; values here
    carry no identity, so two of them never count as the same, which can
    only make an effect run more often. *)
Definition object_is (a b : value) : bool :=
  match a, b with
  | Undefined, Undefined => true
  | Null, Null => true
  | Bool x, Bool y => Bool.eqb x y
  | Num x, Num y => PrimFloat.Leibniz.eqb x y
  | Str x, Str y => String.eqb x y
  | _, _ => false
  end.

(** The value a property read yields once the base is known not to be
    [null] or [undefined].  The property names read in this repository
    ([id], [title], [body], [name], [email], [props], [blogs], [news]) are
    on no built-in prototype, so only an object's own fields can answer. *)
Definition field (v : value) (p : string) : value :=
  match v with
  | Obj fields => default Undefined (fields !! p)
  | _ => Undefined
  end.

(** [v.p] *)
Definition get (v : value) (p : string) : completion value :=
  if nullish v then Throw (TypeError p) else Normal (field v p).

(** Relative index of [Array.prototype.slice] and [String.prototype.slice]. *)
Definition relative_index (len k : Z) : Z :=
  if k <? 0 then Z.max (len + k) 0 else Z.min k len.

Definition slice_list {A : Type} (l : list A) (start stop : Z) : list A :=
  let len := Z.of_nat (length l) in
  let k := relative_index len start in
  let final := relative_index len stop in
  take (Z.to_nat (final - k)) (drop (Z.to_nat k) l).

Definition slice_string (s : string) (start stop : Z) : string :=
  let len := Z.of_nat (String.length s) in
  let k := relative_index len start in
  let final := relative_index len stop in
  String.substring (Z.to_nat k) (Z.to_nat (final - k)) s.

(** [v.slice(start, stop)].  Strings have a [slice] of their own; every
    other non-array value has no callable [slice]. *)
Definition call_slice (v : value) (start stop : Z) : completion value :=
  match v with
  | Arr items => Normal (Arr (slice_list items start stop))
  | Str s => Normal (Str (slice_string s start stop))
  | _ => Throw (TypeError "slice")
  end.

(** The callback of [map] applied to the elements from left to right; the
    first exception aborts the loop. *)
Fixpoint map_cb {A B : Type} (f : A → completion B) (l : list A)
  : completion (list B) :=
  match l with
  | [] => Normal []
  | x :: rest =>
      y ← f x;
      ys ← map_cb f rest;
      Normal (y :: ys)
  end.

(** ** JSX *)

Inductive node : Type :=
| Text (s : string)                       (* literal text *)
| Expr (v : value)                        (* {expression} child *)
| Element (tag : string) (key : option value) (children : list node)
| Many (items : list node).               (* an array used as a child *)

(** [v.map(cb)]: only arrays have a callable [map]. *)
Definition call_map (v : value) (cb : value → completion node)
  : completion (list node) :=
  match v with
  | Arr items => map_cb cb items
  | _ => Throw (TypeError "map")
  end.

(** ** The host: network and promises *)

(** [fetch(url, init)]; [init] is [Undefined] when the call has one argument. *)
Record request : Type := { url : string; init : value }.

(** A response: its status code and what [res.json()] settles to. *)
Record response : Type := { status : Z; body : completion value }.

(** The remote endpoints, as seen from the program. *)
Definition network : Type := request → completion response.

(** A promise chain [fetch(...).then(f).then(g)] that has not settled yet. *)
Record pending (S : Type) : Type := {
  p_request : request;
  p_then : response → completion value;
  p_finally : value → S → S
}.
Arguments p_request {S} _.
Arguments p_then {S} _.
Arguments p_finally {S} _.

(** What the program leaves behind in its host: the requests it issued, in
    order, and the rejections nobody handled. *)
Record host : Type := { requests : list request; unhandled : list exn }.

Definition issue (r : request) (h : host) : host :=
  {| requests := requests h ++ [r]; unhandled := unhandled h |}.

Definition reject (e : exn) (h : host) : host :=
  {| requests := requests h; unhandled := unhandled h ++ [e] |}.

(** Async functions: they read the network and act on the host. *)
Definition async (A : Type) : Type := network → host → completion A * host.

#[global] Instance async_ret : MRet async := λ A a _ h, (Normal a, h).
#[global] Instance async_bind : MBind async := λ A B f m net h,
  match m net h with
  | (Normal a, h') => f a net h'
  | (Throw e, h') => (Throw e, h')
  end.

Definition lift {A : Type} (c : completion A) : async A := λ _ h, (c, h).

(** [await fetch(url, init)] *)
Definition fetch (u : string) (i : value) : async response := λ net h,
  let r := {| url := u; init := i |} in (net r, issue r h).

(** [res.json()] *)
Definition json (res : response) : async value := lift (body res).

(** ** Pages Router contract

    Next.js awaits the data function a page exports and hands the [props]
    member of its result to the default export. *)
Definition render_page (data : async value) (component : value → completion node)
  : async node :=
  result ← data;
  props ← lift (get result "props");
  lift (component props).

(** ** Server-rendered examples *)

(** pages/blogs.js — Static Site Generation, Pages Router *)
Module PagesBlogs.

Definition getStaticProps : async value :=
  res ← fetch "https://api.example.com/blogs" Undefined;
  blogs ← json res;
  mret (Obj {[ "props" := Obj {[ "blogs" := blogs ]} ]}).

Definition Blogs (props : value) : completion node :=
  blogs ← get props "blogs";
  rows ← call_map blogs (λ blog,
    k ← get blog "id";
    title ← get blog "title";
    Normal (Element "div" (Some k) [Expr title]));
  Normal (Element "div" None [Element "h1" None [Text "Blogs"]; Many rows]).

End PagesBlogs.

(** pages/news.js — Server-Side Rendering, Pages Router *)
Module PagesNews.

Definition getServerSideProps : async value :=
  res ← fetch "https://api.example.com/news" Undefined;
  news ← json res;
  mret (Obj {[ "props" := Obj {[ "news" := news ]} ]}).

Definition News (props : value) : completion node :=
  news ← get props "news";
  rows ← call_map news (λ item,
    k ← get item "id";
    title ← get item "title";
    Normal (Element "div" (Some k) [Expr title]));
  Normal (Element "div" None [Element "h1" None [Text "News"]; Many rows]).

End PagesNews.

(** pages/posts.js — Incremental Static Regeneration, Pages Router *)
Module PagesPosts.

Definition getStaticProps : async value :=
  res ← fetch "https://api.example.com/posts" Undefined;
  posts ← json res;
  mret (Obj (<[ "props" := Obj {[ "posts" := posts ]} ]>
             {[ "revalidate" := Num 10 ]})).

End PagesPosts.

(** app/blogs/page.jsx — Static Site Generation, App Router *)
Module AppBlogs.

Definition getBlogs : async value :=
  res ← fetch "https://api.example.com/blogs" Undefined;
  json res.

Definition BlogsPage : async node :=
  blogs ← getBlogs;
  first ← lift (call_slice blogs 0 5);
  rows ← lift (call_map first (λ post,
    k ← get post "id";
    title ← get post "title";
    Normal (Element "p" (Some k) [Expr title])));
  mret (Element "div" None [Element "h1" None [Text "SSG Blogs"]; Many rows]).

End AppBlogs.

(** app/posts/page.tsx — Incremental Static Regeneration, App Router *)
Module AppPosts.

Definition getPosts : async value :=
  res ← fetch "https://api.example.com/posts"
          (Obj {[ "next" := Obj {[ "revalidate" := Num 10 ]} ]});
  json res.

Definition PostsPage : async node :=
  posts ← getPosts;
  rows ← lift (call_map posts (λ post,
    k ← get post "id";
    title ← get post "title";
    Normal (Element "p" (Some k) [Expr title])));
  mret (Element "div" None [Element "h1" None [Text "ISR Posts"]; Many rows]).

End AppPosts.

(** app/news/page.tsx — Server-Side Rendering, App Router *)
Module AppNews.

Definition getNews : async value :=
  res ← fetch "https://api.example.com/news"
          (Obj {[ "cache" := Str "no-store" ]});
  json res.

Definition NewsPage : async node :=
  news ← getNews;
  first ← lift (call_slice news 0 5);
  rows ← lift (call_map first (λ n,
    k ← get n "id";
    text ← get n "body";
    Normal (Element "p" (Some k) [Expr text])));
  mret (Element "div" None [Element "h1" None [Text "SSR News"]; Many rows]).

End AppNews.

(** ** React hooks

    The part of React's contract the two client components use: one state
    cell and one effect per component instance. *)

(** Hook memory of a mounted instance.  [cell] is [None] until the first
    render has initialised it; [effect_deps] is [None] until the effect has
    been registered once, then holds the dependency array of the last render
    ([Some None] when [useEffect] was called without one). *)
Record fiber : Type := {
  cell : option value;
  effect_deps : option (option (list value))
}.

(** An effect callback: it may issue requests and start promise chains. *)
Definition effect_body : Type := host → list (pending fiber) * host.

(** A render function: reads and updates the hook memory and schedules
    effects for the commit. *)
Definition hook (A : Type) : Type := fiber → A * fiber * list effect_body.

#[global] Instance hook_ret : MRet hook := λ A a fb, (a, fb, []).
#[global] Instance hook_bind : MBind hook := λ A B f m fb,
  let '(a, fb1, es1) := m fb in
  let '(b, fb2, es2) := f a fb1 in
  (b, fb2, es1 ++ es2).

Definition set_cell (v : value) (fb : fiber) : fiber :=
  {| cell := Some v; effect_deps := effect_deps fb |}.

(** [const [state, setState] = useState(initial)] *)
Definition useState (initial : value) : hook (value * (value → fiber → fiber)) :=
  λ fb,
    match cell fb with
    | Some v => ((v, set_cell), fb, [])
    | None =>
        ((initial, set_cell),
         {| cell := Some initial; effect_deps := effect_deps fb |}, [])
    end.

(** React's [areHookInputsEqual]: element-wise [Object.is] over the common
    prefix of the two dependency arrays. *)
Fixpoint areHookInputsEqual (next prev : list value) : bool :=
  match next, prev with
  | n :: next', p :: prev' => object_is n p && areHookInputsEqual next' prev'
  | _, _ => true
  end.

(** [useEffect(body, deps)]: the effect runs after the first render, and
    after a later one only when there is no dependency array or one of the
    dependencies changed.  (The extra mount-unmount-mount cycle of Strict
    Mode in development builds is a remount and is not modelled.) *)
Definition useEffect (body : effect_body) (deps : option (list value))
  : hook unit :=
  λ fb,
    let fire :=
      match effect_deps fb, deps with
      | Some (Some prev), Some next => negb (areHookInputsEqual next prev)
      | _, _ => true
      end in
    (tt, {| cell := cell fb; effect_deps := Some deps |},
     if fire then [body] else []).

(** [fetch(url).then(f).then(g)] inside an effect: the request goes out, the
    chain stays pending, and nothing is attached to catch a rejection. *)
Definition fetch_then (u : string) (i : value)
    (f : response → completion value) (g : value → fiber → fiber)
  : effect_body :=
  λ h,
    let r := {| url := u; init := i |} in
    ([{| p_request := r; p_then := f; p_finally := g |}], issue r h).

(** A mounted client component. *)
Record client : Type := {
  hooks : fiber;
  screen : completion node;
  inflight : list (pending fiber);
  env : host
}.

Fixpoint run_effects (es : list effect_body) (h : host)
  : list (pending fiber) * host :=
  match es with
  | [] => ([], h)
  | e :: rest =>
      let '(ps, h1) := e h in
      let '(qs, h2) := run_effects rest h1 in
      (ps ++ qs, h2)
  end.

(** One render followed by its commit. *)
Definition render_pass (component : hook (completion node))
    (fb : fiber) (queue : list (pending fiber)) (h : host) : client :=
  let '(out, fb', es) := component fb in
  let '(ps, h') := run_effects es h in
  {| hooks := fb'; screen := out; inflight := queue ++ ps; env := h' |}.

Definition mount (component : hook (completion node)) (h : host) : client :=
  render_pass component {| cell := None; effect_deps := None |} [] h.

Definition rerender (component : hook (completion node)) (c : client) : client :=
  render_pass component (hooks c) (inflight c) (env c).

(** The oldest pending chain settles.  When it fulfils, its last handler
    (the state setter) runs and the component renders again; when any link
    rejects, the rejection is left unhandled. *)
Definition settle (net : network) (component : hook (completion node))
    (c : client) : client :=
  match inflight c with
  | [] => c
  | p :: queue =>
      match res ← net (p_request p); p_then p res with
      | Normal v => render_pass component (p_finally p v (hooks c)) queue (env c)
      | Throw e =>
          {| hooks := hooks c; screen := screen c;
             inflight := queue; env := reject e (env c) |}
      end
  end.

Inductive event : Type := Rerender | Settle.

Definition step (net : network) (component : hook (completion node))
    (c : client) (ev : event) : client :=
  match ev with
  | Rerender => rerender component c
  | Settle => settle net component c
  end.

Definition run (net : network) (component : hook (completion node))
    (evs : list event) (c : client) : client :=
  fold_left (step net component) evs c.

(** ** Client-rendered examples *)

(** pages/profile.js — Client-Side Rendering, Pages Router *)
Module PagesProfile.

Definition Profile : hook (completion node) :=
  '(user, setUser) ← useState Null;
  _ ← useEffect
        (fetch_then "https://api.example.com/users/1" Undefined body setUser)
        (Some []);
  if negb (truthy user) then mret (Normal (Element "p" None [Text "Loading..."]))
  else
    mret (name ← get user "name";
          email ← get user "email";
          Normal (Element "div" None
                    [Element "h1" None [Expr name];
                     Element "p" None [Expr email]])).

End PagesProfile.

(** app/profile/page.tsx — Client-Side Rendering, App Router ('use client') *)
Module AppProfile.

Definition ProfilePage : hook (completion node) :=
  '(user, setUser) ← useState Null;
  _ ← useEffect
        (fetch_then "https://api.example.com/users/1" Undefined body setUser)
        (Some []);
  if negb (truthy user) then mret (Normal (Element "p" None [Text "Loading..."]))
  else
    mret (name ← get user "name";
          email ← get user "email";
          Normal (Element "div" None
                    [Element "h1" None [Expr name];
                     Element "p" None [Expr email]])).

End AppProfile.

(** ** The examples as a whole *)

(** The data functions, each with the one request it is written to issue. *)
Inductive loader : Type :=
| PagesBlogs_getStaticProps
| PagesNews_getServerSideProps
| PagesPosts_getStaticProps
| AppBlogs_getBlogs
| AppNews_getNews
| AppPosts_getPosts.

Definition loader_run (d : loader) : async value :=
  match d with
  | PagesBlogs_getStaticProps => PagesBlogs.getStaticProps
  | PagesNews_getServerSideProps => PagesNews.getServerSideProps
  | PagesPosts_getStaticProps => PagesPosts.getStaticProps
  | AppBlogs_getBlogs => AppBlogs.getBlogs
  | AppNews_getNews => AppNews.getNews
  | AppPosts_getPosts => AppPosts.getPosts
  end.

Definition loader_request (d : loader) : request :=
  match d with
  | PagesBlogs_getStaticProps | AppBlogs_getBlogs =>
      {| url := "https://api.example.com/blogs"; init := Undefined |}
  | PagesNews_getServerSideProps =>
      {| url := "https://api.example.com/news"; init := Undefined |}
  | PagesPosts_getStaticProps =>
      {| url := "https://api.example.com/posts"; init := Undefined |}
  | AppNews_getNews =>
      {| url := "https://api.example.com/news";
         init := Obj {[ "cache" := Str "no-store" ]} |}
  | AppPosts_getPosts =>
      {| url := "https://api.example.com/posts";
         init := Obj {[ "next" := Obj {[ "revalidate" := Num 10 ]} ]} |}
  end.

(** What a data function hands on once the body [v] has been parsed: the
    Pages Router functions wrap it, the App Router ones return it as it is. *)
Definition loader_result (d : loader) (v : value) : value :=
  match d with
  | PagesBlogs_getStaticProps => Obj {[ "props" := Obj {[ "blogs" := v ]} ]}
  | PagesNews_getServerSideProps => Obj {[ "props" := Obj {[ "news" := v ]} ]}
  | PagesPosts_getStaticProps =>
      Obj (<[ "props" := Obj {[ "posts" := v ]} ]> {[ "revalidate" := Num 10 ]})
  | AppBlogs_getBlogs | AppNews_getNews | AppPosts_getPosts => v
  end.

(** The list-rendering pages, end to end: data function, then component. *)
Inductive listing : Type :=
| PagesBlogsListing
| PagesNewsListing
| AppBlogsListing
| AppNewsListing
| AppPostsListing.

#[global] Instance listing_eq_dec : EqDecision listing.
Proof. solve_decision. Defined.

Definition listing_page (l : listing) : async node :=
  match l with
  | PagesBlogsListing => render_page PagesBlogs.getStaticProps PagesBlogs.Blogs
  | PagesNewsListing => render_page PagesNews.getServerSideProps PagesNews.News
  | AppBlogsListing => AppBlogs.BlogsPage
  | AppNewsListing => AppNews.NewsPage
  | AppPostsListing => AppPosts.PostsPage
  end.

Definition listing_loader (l : listing) : loader :=
  match l with
  | PagesBlogsListing => PagesBlogs_getStaticProps
  | PagesNewsListing => PagesNews_getServerSideProps
  | AppBlogsListing => AppBlogs_getBlogs
  | AppNewsListing => AppNews_getNews
  | AppPostsListing => AppPosts_getPosts
  end.

(** Heading, row tag and the field shown in a row, per page. *)
Definition listing_heading (l : listing) : string :=
  match l with
  | PagesBlogsListing => "Blogs"
  | PagesNewsListing => "News"
  | AppBlogsListing => "SSG Blogs"
  | AppNewsListing => "SSR News"
  | AppPostsListing => "ISR Posts"
  end.

Definition listing_tag (l : listing) : string :=
  match l with
  | PagesBlogsListing | PagesNewsListing => "div"
  | AppBlogsListing | AppNewsListing | AppPostsListing => "p"
  end.

Definition listing_field (l : listing) : string :=
  match l with
  | AppNewsListing => "body"
  | _ => "title"
  end.

(** The pages that cut their list with [slice(0, 5)]. *)
Definition truncating (l : listing) : bool :=
  match l with
  | AppBlogsListing | AppNewsListing => true
  | _ => false
  end.

(** The array elements a page maps over. *)
Definition shown (l : listing) (items : list value) : list value :=
  if truncating l then take 5 items else items.

(** A row built from an array element: its [id] as key, one field as the
    only child, both exactly as they are in the element. *)
Definition row (tag shown_field : string) (x : value) : node :=
  Element tag (Some (field x "id")) [Expr (field x shown_field)].

Definition listing_row (l : listing) : value → node :=
  row (listing_tag l) (listing_field l).

Definition listing_markup (l : listing) (rows : list node) : node :=
  Element "div" None [Element "h1" None [Text (listing_heading l)]; Many rows].

(** The rows of a rendered list page. *)
Definition rows_of (n : node) : list node :=
  match n with
  | Element _ _ [_; Many rows] => rows
  | _ => []
  end.

(** An element with all fields but those in [keep] deleted. *)
Definition only (keep : list string) (v : value) : value :=
  match v with
  | Obj fields => Obj (filter (λ kv, kv.1 ∈ keep) fields)
  | _ => v
  end.

(** The client components. *)
Inductive widget : Type := PagesProfileWidget | AppProfileWidget.

Definition widget_component (w : widget) : hook (completion node) :=
  match w with
  | PagesProfileWidget => PagesProfile.Profile
  | AppProfileWidget => AppProfile.ProfilePage
  end.

Definition profile_request : request :=
  {| url := "https://api.example.com/users/1"; init := Undefined |}.

Definition loading : node := Element "p" None [Text "Loading..."].

Definition profile_markup (user : value) : node :=
  Element "div" None
    [Element "h1" None [Expr (field user "name")];
     Element "p" None [Expr (field user "email")]].

(** What a client component returns when its state cell holds [user]. *)
Definition view (w : widget) (user : value) : completion node :=
  (widget_component w {| cell := Some user; effect_deps := Some (Some []) |}).1.1.

Definition fresh : host := {| requests := []; unhandled := [] |}.

(** What a list page makes of the parsed body [v]. *)
Definition listing_view (l : listing) (v : value) : completion node :=
  match v with
  | Arr items =>
      if forallb (λ x, negb (nullish x)) (shown l items)
      then Normal (listing_markup l (listing_row l <$> shown l items))
      else Throw (TypeError "id")
  | Str _ => Throw (TypeError "map")
  | _ => Throw (TypeError (if truncating l then "slice" else "map"))
  end.

(** The promise chain both profile components start in their effect. *)
Definition profile_chain : pending fiber :=
  {| p_request := profile_request; p_then := body; p_finally := set_cell |}.


(** A hook memory whose effect is registered with a dependency array. *)
Definition registered (fb : fiber) : bool :=
  match effect_deps fb with
  | Some (Some _) => true
  | _ => false
  end.

(** The state of a profile component after its mount: the effect is
    registered and every pending chain is the one the effect started. *)
Definition steady (c : client) : Prop :=
  registered (hooks c) = true ∧ Forall (λ p, p = profile_chain) (inflight c).


(** The exception a request ends in, if any: the fetch is rejected, or the
    body does not parse. *)
Definition failing (net : network) (r : request) : option exn :=
  match res ← net r; body res with
  | Normal _ => None
  | Throw e => Some e
  end.

(** A profile component that failed to load: nothing pending, state still
    [null], the loading paragraph on screen. *)
Definition stuck (c : client) : Prop :=
  registered (hooks c) = true ∧ cell (hooks c) = Some Null
  ∧ inflight c = [] ∧ screen c = Normal loading.

(** The eight example files, run once each: a list page is rendered, the
    ISR data function of pages/posts.js is called, a client component is
    mounted and its request settles. *)
Inductive snippet : Type :=
| ListPage (l : listing)
| PostsProps
| ClientPage (w : widget).

Inductive outcome : Type :=
| Rendered (n : completion node)
| Returned (v : completion value).

Definition execute (s : snippet) (net : network) (h : host) : outcome * host :=
  match s with
  | ListPage l => let '(n, h') := listing_page l net h in (Rendered n, h')
  | PostsProps =>
      let '(v, h') := PagesPosts.getStaticProps net h in (Returned v, h')
  | ClientPage w =>
      let c := settle net (widget_component w) (mount (widget_component w) h) in
      (Rendered (screen c), env c)
  end.

(** The one request each example is written to issue. *)
Definition snippet_request (s : snippet) : request :=
  match s with
  | ListPage l => loader_request (listing_loader l)
  | PostsProps => loader_request PagesPosts_getStaticProps
  | ClientPage _ => profile_request
  end.

Definition extend (h : host) (rs : list request) (es : list exn) : host :=
  {| requests := requests h ++ rs; unhandled := unhandled h ++ es |}.

(** Markup with the data taken out. *)
Inductive shape : Type :=
| SText (s : string)
| SHole
| SElement (tag : string) (children : list shape)
| SMany (items : list shape).

Fixpoint shape_of (n : node) : shape :=
  match n with
  | Text s => SText s
  | Expr _ => SHole
  | Element tag _ children => SElement tag (map shape_of children)
  | Many items => SMany (map shape_of items)
  end.

Definition listing_shape (l : listing) (count : nat) : shape :=
  SElement "div"
    [SElement "h1" [SText (listing_heading l)];
     SMany (replicate count (SElement (listing_tag l) [SHole]))].

Definition loading_shape : shape := SElement "p" [SText "Loading..."].

Definition profile_shape : shape :=
  SElement "div" [SElement "h1" [SHole]; SElement "p" [SHole]].

(** ** Sample endpoints *)

(** An endpoint answering every request with status 200 and body [v]. *)
Definition serve (v : value) : network :=
  λ _, Normal {| status := 200; body := Normal v |}.

(** An endpoint no request reaches. *)
Definition unreachable (e : exn) : network := λ _, Throw e.

(** An endpoint whose body is not JSON. *)
Definition garbled (e : exn) : network :=
  λ _, Normal {| status := 200; body := Throw e |}.

Definition article (n : float) (title text : string) : value :=
  Obj (<[ "id" := Num n ]> (<[ "title" := Str title ]>
        (<[ "body" := Str text ]> {[ "author" := Str "anonymous" ]}))).

Definition six_articles : list value :=
  [article 1 "one" "first"; article 2 "two" "second";
   article 3 "three" "third"; article 4 "four" "fourth";
   article 5 "five" "fifth"; article 6 "six" "sixth"].

Definition ada : value :=
  Obj (<[ "name" := Str "Ada" ]> (<[ "email" := Str "ada@example.com" ]>
        {[ "phone" := Str "555-0100" ]})).

(** ** Further observations *)

Definition is_settle (ev : event) : bool :=
  match ev with
  | Settle => true
  | Rerender => false
  end.

(** Several examples run one after the other on the same host. *)
Fixpoint execute_all (ss : list snippet) (net : network) (h : host)
  : list outcome * host :=
  match ss with
  | [] => ([], h)
  | s :: rest =>
      let '(o, h1) := execute s net h in
      let '(os, h2) := execute_all rest net h1 in
      (o :: os, h2)
  end.

(** The rejection an example leaves unhandled: only a client component can,
    when its request fails. *)
Definition snippet_rejection (net : network) (s : snippet) : option exn :=
  match s with
  | ClientPage _ => failing net profile_request
  | _ => None
  end.

(** Key and children of a row, without its tag. *)
Definition row_data (n : node) : option value * list node :=
  match n with
  | Element _ k children => (k, children)
  | _ => (None, [])
  end.

(** How the consumer of a data function reads the parsed body back: a Pages
    Router component destructures [props], an App Router page uses the
    result as it is. *)
Definition loader_unwrap (d : loader) (r : value) : completion value :=
  match d with
  | PagesBlogs_getStaticProps => props ← get r "props"; get props "blogs"
  | PagesNews_getServerSideProps => props ← get r "props"; get props "news"
  | PagesPosts_getStaticProps => props ← get r "props"; get props "posts"
  | AppBlogs_getBlogs | AppNews_getNews | AppPosts_getPosts => Normal r
  end.

(** A row with nothing in it. *)
Definition blank_row (tag : string) : node :=
  Element tag (Some Undefined) [Expr Undefined].

(** * Properties *)

(** ** JavaScript library functions *)

Lemma slice_list_prefix {A : Type} (l : list A) (n : nat) :
  slice_list l 0 (Z.of_nat n) = take n l.
Proof.
  unfold slice_list, relative_index.
  replace (0 <? 0) with false by reflexivity.
  destruct (Z.ltb_spec (Z.of_nat n) 0) as [Hneg | _]; [lia |].
  replace (Z.to_nat (Z.min 0 (Z.of_nat (length l)))) with 0%nat by lia.
  rewrite drop_0.
  destruct (decide (n ≤ length l)%nat) as [Hle | Hgt].
  - f_equal. lia.
  - replace (Z.to_nat _) with (length l) by lia.
    rewrite firstn_all. symmetry. apply take_ge. lia.
Qed.

Lemma map_cb_rows (tag shown_field : string) (cb : value → completion node)
    (items : list value) :
  (∀ x, cb x = (k ← get x "id";
                c ← get x shown_field;
                Normal (Element tag (Some k) [Expr c]))) →
  map_cb cb items
  = if forallb (λ x, negb (nullish x)) items
    then Normal (row tag shown_field <$> items)
    else Throw (TypeError "id").
Proof.
  intros Hcb. induction items as [| x rest IH]; [reflexivity |].
  cbn [map_cb forallb]. rewrite IH, Hcb. unfold get.
  destruct (nullish x); [reflexivity |].
  cbn. destruct (forallb _ rest); reflexivity.
Qed.

Lemma map_cb_length {A B : Type} (f : A → completion B) (l : list A) (out : list B) :
  map_cb f l = Normal out → length out = length l.
Proof.
  revert out. induction l as [| x rest IH]; intros out; cbn.
  - intros [= <-]. reflexivity.
  - destruct (f x) as [y |]; [| discriminate]. cbn.
    destruct (map_cb f rest) as [ys |]; [| discriminate]. cbn.
    intros [= <-]. cbn. f_equal. apply IH. reflexivity.
Qed.

Lemma nullish_only (keep : list string) (v : value) :
  nullish (only keep v) = nullish v.
Proof. destruct v; reflexivity. Qed.

Lemma field_only (keep : list string) (v : value) (p : string) :
  p ∈ keep → field (only keep v) p = field v p.
Proof.
  intros Hin. destruct v; try reflexivity. cbn.
  destruct (fields !! p) as [x |] eqn:Hp.
  - erewrite (map_lookup_filter_Some_2 _ fields p x); [reflexivity | exact Hp | exact Hin].
  - rewrite map_lookup_filter_None_2; [reflexivity | left; exact Hp].
Qed.

Lemma truthy_only (keep : list string) (v : value) :
  truthy (only keep v) = truthy v.
Proof. destruct v; reflexivity. Qed.

Lemma row_only (tag shown_field : string) (x : value) :
  row tag shown_field (only ["id"; shown_field] x) = row tag shown_field x.
Proof.
  unfold row. rewrite !field_only; [reflexivity | |]; set_solver.
Qed.

(** ** Data functions and list pages, end to end *)

(** Unfold the async plumbing down to the network call. *)
Ltac run_async :=
  unfold loader_run, listing_page, render_page,
    PagesBlogs.getStaticProps, PagesNews.getServerSideProps,
    PagesPosts.getStaticProps, AppBlogs.BlogsPage, AppBlogs.getBlogs,
    AppNews.NewsPage, AppNews.getNews, AppPosts.PostsPage, AppPosts.getPosts,
    json, lift, fetch;
  unfold mbind, mret, async_bind, async_ret;
  cbn [loader_request listing_loader].

Lemma loader_run_spec (d : loader) (net : network) (h : host) :
  loader_run d net h =
  (res ← net (loader_request d); v ← body res; Normal (loader_result d v),
   issue (loader_request d) h).
Proof.
  destruct d; run_async;
    (destruct (net _) as [res | e]; [| reflexivity]); cbn [mbind completion_bind];
    (destruct (body res) as [v | e]; reflexivity).
Qed.

Lemma field_singleton (p : string) (v : value) :
  field (Obj {[ p := v ]}) p = v.
Proof. cbn. rewrite lookup_singleton_eq. reflexivity. Qed.

Lemma get_singleton (p : string) (v : value) :
  get (Obj {[ p := v ]}) p = Normal v.
Proof. unfold get. cbn [nullish]. rewrite field_singleton. reflexivity. Qed.

Lemma component_spec (l : listing) (v : value) :
  match l with
  | PagesBlogsListing => PagesBlogs.Blogs (Obj {[ "blogs" := v ]})
  | PagesNewsListing => PagesNews.News (Obj {[ "news" := v ]})
  | _ => listing_view l v
  end = listing_view l v.
Proof.
  destruct l; try reflexivity.
  - unfold PagesBlogs.Blogs. rewrite get_singleton. cbn [mbind completion_bind].
    destruct v; try reflexivity.
    cbn [mbind completion_bind call_map].
    erewrite map_cb_rows by (intros; reflexivity).
    unfold listing_view, shown. cbn [truncating].
    destruct (forallb _ items); reflexivity.
  - unfold PagesNews.News. rewrite get_singleton. cbn [mbind completion_bind].
    destruct v; try reflexivity.
    cbn [mbind completion_bind call_map].
    erewrite map_cb_rows by (intros; reflexivity).
    unfold listing_view, shown. cbn [truncating].
    destruct (forallb _ items); reflexivity.
Qed.

Lemma listing_page_spec (l : listing) (net : network) (h : host) :
  listing_page l net h =
  (res ← net (loader_request (listing_loader l)); v ← body res; listing_view l v,
   issue (loader_request (listing_loader l)) h).
Proof.
  destruct l; run_async.
  all: destruct (net _) as [res | e]; [| reflexivity].
  all: cbn [completion_bind].
  all: destruct (body res) as [v | e]; [| reflexivity].
  all: cbn [completion_bind].
  - rewrite get_singleton, (component_spec PagesBlogsListing). reflexivity.
  - rewrite get_singleton, (component_spec PagesNewsListing). reflexivity.
  - destruct v; try reflexivity. cbn [call_slice call_map].
    change 5 with (Z.of_nat 5). rewrite slice_list_prefix.
    erewrite map_cb_rows by (intros; reflexivity).
    unfold listing_view, shown. cbn [truncating].
    destruct (forallb _ (take 5 items)); reflexivity.
  - destruct v; try reflexivity. cbn [call_slice call_map].
    change 5 with (Z.of_nat 5). rewrite slice_list_prefix.
    erewrite map_cb_rows by (intros; reflexivity).
    unfold listing_view, shown. cbn [truncating].
    destruct (forallb _ (take 5 items)); reflexivity.
  - destruct v; try reflexivity. cbn [call_map].
    erewrite map_cb_rows by (intros; reflexivity).
    unfold listing_view, shown. cbn [truncating].
    destruct (forallb _ items); reflexivity.
Qed.

(** ** Client components *)

(** One call of a client component on any hook memory: it reads the state
    cell ([null] on the first render), registers its effect with the empty
    dependency array, schedules the effect only if none was registered with
    a dependency array before, and returns one of two markups. *)
Lemma widget_render (w : widget) (fb : fiber) :
  widget_component w fb =
  let user := default Null (cell fb) in
  (Normal (if truthy user then profile_markup user else loading),
   {| cell := Some user; effect_deps := Some (Some []) |},
   match effect_deps fb with
   | Some (Some _) => []
   | _ => [λ h, ([profile_chain], issue profile_request h)]
   end).
Proof.
  destruct w, fb as [[user |] [[prev |] |]];
    unfold widget_component, PagesProfile.Profile, AppProfile.ProfilePage;
    unfold mbind, hook_bind, useState, useEffect, mret, hook_ret;
    cbn -[truthy get].
  all: try (destruct (truthy user) eqn:Hu; cbn -[truthy get];
            [destruct user; try discriminate Hu |]; reflexivity).
  all: reflexivity.
Qed.

Lemma render_pass_first (w : widget) (fb : fiber) (queue : list (pending fiber))
    (h : host) :
  registered fb = false →
  render_pass (widget_component w) fb queue h =
  let user := default Null (cell fb) in
  {| hooks := {| cell := Some user; effect_deps := Some (Some []) |};
     screen := Normal (if truthy user then profile_markup user else loading);
     inflight := queue ++ [profile_chain];
     env := issue profile_request h |}.
Proof.
  intros Hreg. unfold render_pass. rewrite widget_render.
  unfold registered in Hreg.
  destruct (effect_deps fb) as [[prev |] |]; [discriminate | reflexivity ..].
Qed.

Lemma render_pass_again (w : widget) (fb : fiber) (queue : list (pending fiber))
    (h : host) :
  registered fb = true →
  render_pass (widget_component w) fb queue h =
  let user := default Null (cell fb) in
  {| hooks := {| cell := Some user; effect_deps := Some (Some []) |};
     screen := Normal (if truthy user then profile_markup user else loading);
     inflight := queue;
     env := h |}.
Proof.
  intros Hreg. unfold render_pass. rewrite widget_render.
  unfold registered in Hreg.
  destruct (effect_deps fb) as [[prev |] |]; [| discriminate ..].
  cbn. rewrite app_nil_r. reflexivity.
Qed.

Lemma mount_spec (w : widget) (h : host) :
  mount (widget_component w) h =
  {| hooks := {| cell := Some Null; effect_deps := Some (Some []) |};
     screen := Normal loading;
     inflight := [profile_chain];
     env := issue profile_request h |}.
Proof. unfold mount. rewrite render_pass_first; reflexivity. Qed.

Lemma mount_steady (w : widget) (h : host) :
  steady (mount (widget_component w) h).
Proof.
  rewrite mount_spec. split; [reflexivity |]. repeat constructor.
Qed.

(** After the mount no event issues a request. *)
Lemma step_steady (w : widget) (net : network) (c : client) (ev : event) :
  steady c →
  steady (step net (widget_component w) c ev)
  ∧ requests (env (step net (widget_component w) c ev)) = requests (env c).
Proof.
  intros [Hreg Hq]. destruct ev; cbn [step].
  - unfold rerender. rewrite render_pass_again by exact Hreg.
    repeat split. exact Hq.
  - unfold settle. destruct (inflight c) as [| p queue] eqn:Hin; [split; [split; [exact Hreg | rewrite Hin; constructor] | reflexivity] |].
    apply Forall_cons in Hq as [-> Hq].
    destruct (net (p_request profile_chain) ≫= p_then profile_chain) as [v | e].
    + rewrite render_pass_again by exact Hreg. repeat split. exact Hq.
    + repeat split; assumption.
Qed.

Lemma run_steady (w : widget) (net : network) (evs : list event) (c : client) :
  steady c →
  steady (run net (widget_component w) evs c)
  ∧ requests (env (run net (widget_component w) evs c)) = requests (env c).
Proof.
  revert c. induction evs as [| ev evs IH]; intros c Hc; [split; [exact Hc | reflexivity] |].
  cbn [run fold_left].
  destruct (step_steady w net c ev Hc) as [Hc' Hreq].
  destruct (IH _ Hc') as [Hfinal Hreq'].
  split; [exact Hfinal |]. unfold run in Hreq'. rewrite Hreq'. exact Hreq.
Qed.

(** The first settlement after a mount. *)
Lemma settle_mount (w : widget) (net : network) (h : host) :
  settle net (widget_component w) (mount (widget_component w) h) =
  match res ← net profile_request; body res with
  | Normal user =>
      {| hooks := {| cell := Some user; effect_deps := Some (Some []) |};
         screen := Normal (if truthy user then profile_markup user else loading);
         inflight := [];
         env := issue profile_request h |}
  | Throw e =>
      {| hooks := {| cell := Some Null; effect_deps := Some (Some []) |};
         screen := Normal loading;
         inflight := [];
         env := reject e (issue profile_request h) |}
  end.
Proof.
  rewrite mount_spec. unfold settle. cbn [inflight p_request p_then profile_chain].
  destruct (net profile_request ≫= body) as [user | e]; [| reflexivity].
  rewrite render_pass_again by reflexivity. reflexivity.
Qed.

Lemma view_spec (w : widget) (user : value) :
  view w user = Normal (if truthy user then profile_markup user else loading).
Proof. unfold view. rewrite widget_render. reflexivity. Qed.

(** ** Consequences used by the main results *)

Lemma listing_page_array (l : listing) (net : network) (h : host)
    (res : response) (items : list value) :
  net (loader_request (listing_loader l)) = Normal res →
  body res = Normal (Arr items) →
  (listing_page l net h).1 =
  if forallb (λ x, negb (nullish x)) (shown l items)
  then Normal (listing_markup l (listing_row l <$> shown l items))
  else Throw (TypeError "id").
Proof.
  intros Hnet Hbody. rewrite listing_page_spec, Hnet. cbn. rewrite Hbody.
  reflexivity.
Qed.

Lemma failing_spec (net : network) (r : request) (e : exn) :
  failing net r = Some e → (res ← net r; body res) = Throw e.
Proof.
  unfold failing. destruct (net r ≫= body); [discriminate |].
  intros [= ->]. reflexivity.
Qed.

Lemma shown_fmap (l : listing) (f : value → value) (items : list value) :
  shown l (f <$> items) = f <$> shown l items.
Proof. unfold shown. destruct (truncating l); [symmetry; apply fmap_take | reflexivity]. Qed.

Lemma shown_lookup (l : listing) (items : list value) (i : nat) :
  shown l items !! i =
  if truncating l && (5 <=? i)%nat then None else items !! i.
Proof.
  unfold shown. destruct (truncating l); cbn [andb]; [| reflexivity].
  destruct (Nat.leb_spec 5 i).
  - apply lookup_take_ge. assumption.
  - apply lookup_take_lt. assumption.
Qed.

Lemma shown_length (l : listing) (items : list value) :
  length (shown l items) =
  if truncating l then Nat.min (length items) 5 else length items.
Proof.
  unfold shown. destruct (truncating l); [| reflexivity].
  rewrite length_take. lia.
Qed.

Lemma forallb_only (keep : list string) (items : list value) :
  forallb (λ x, negb (nullish x)) (only keep <$> items)
  = forallb (λ x, negb (nullish x)) items.
Proof.
  induction items as [| x rest IH]; [reflexivity |].
  cbn. rewrite nullish_only, IH. reflexivity.
Qed.

Lemma rows_only (l : listing) (items : list value) :
  listing_row l <$> (only ["id"; listing_field l] <$> items)
  = listing_row l <$> items.
Proof.
  induction items as [| x rest IH]; [reflexivity |].
  cbn [fmap list_fmap]. unfold listing_row at 1 3. rewrite row_only.
  f_equal. exact IH.
Qed.

Lemma shape_of_rows (l : listing) (items : list value) :
  shape_of (listing_markup l (listing_row l <$> items))
  = listing_shape l (length items).
Proof.
  unfold listing_markup, listing_shape. cbn [shape_of map]. do 4 f_equal.
  induction items as [| x rest IH]; [reflexivity |].
  cbn. f_equal. exact IH.
Qed.

Lemma stuck_step (w : widget) (net : network) (c : client) (ev : event) :
  stuck c →
  stuck (step net (widget_component w) c ev)
  ∧ env (step net (widget_component w) c ev) = env c.
Proof.
  intros (Hreg & Hcell & Hq & Hscreen). destruct ev; cbn [step].
  - unfold rerender. rewrite render_pass_again by exact Hreg.
    rewrite Hcell, Hq. repeat split.
  - unfold settle. rewrite Hq. repeat split; assumption.
Qed.

Lemma stuck_run (w : widget) (net : network) (evs : list event) (c : client) :
  stuck c →
  stuck (run net (widget_component w) evs c)
  ∧ env (run net (widget_component w) evs c) = env c.
Proof.
  revert c. induction evs as [| ev evs IH]; intros c Hc; [split; [exact Hc | reflexivity] |].
  cbn [run fold_left].
  destruct (stuck_step w net c ev Hc) as [Hc' Henv].
  destruct (IH _ Hc') as [Hfinal Henv'].
  split; [exact Hfinal |]. unfold run in Henv'. rewrite Henv'. exact Henv.
Qed.

Lemma issue_extend (r : request) (h : host) : issue r h = extend h [r] [].
Proof. unfold issue, extend. rewrite app_nil_r. reflexivity. Qed.

Lemma reject_issue_extend (r : request) (e : exn) (h : host) :
  reject e (issue r h) = extend h [r] [e].
Proof. reflexivity. Qed.

(** The callback of [map] meets the elements in order: when the whole call
    succeeds there is one result per element, at the same index. *)
Lemma map_cb_lookup {A B : Type} (f : A → completion B) (l : list A)
    (out : list B) (i : nat) (x : A) :
  map_cb f l = Normal out → l !! i = Some x →
  ∃ y, out !! i = Some y ∧ f x = Normal y.
Proof.
  revert out i. induction l as [| a rest IH]; intros out i; [intros _ [=] |].
  cbn [map_cb]. destruct (f a) as [b |] eqn:Hfa; [| discriminate].
  cbn [mbind completion_bind].
  destruct (map_cb f rest) as [bs |]; [| discriminate].
  cbn [mbind completion_bind]. intros [= <-].
  destruct i as [| i]; cbn.
  - intros [= <-]. exists b. split; [reflexivity | exact Hfa].
  - intros Hi. apply (IH bs i eq_refl Hi).
Qed.

Lemma failing_cases (net : network) (r : request) (e : exn) :
  failing net r = Some e →
  net r = Throw e ∨ ∃ res, net r = Normal res ∧ body res = Throw e.
Proof.
  unfold failing. destruct (net r) as [res | e'] eqn:Hnet; cbn.
  - destruct (body res) eqn:Hbody; [discriminate |].
    intros [= ->]. right. exists res. split; [reflexivity | exact Hbody].
  - intros [= ->]. left. reflexivity.
Qed.

Lemma loader_run_failing (d : loader) (net : network) (h : host) (e : exn) :
  failing net (loader_request d) = Some e →
  (loader_run d net h).1 = Throw e.
Proof.
  intros Hfail. rewrite loader_run_spec. cbn [fst].
  destruct (failing_cases _ _ _ Hfail) as [-> | (res & -> & Hbody)].
  - reflexivity.
  - cbn [mbind completion_bind]. rewrite Hbody. reflexivity.
Qed.

Lemma listing_page_failing (l : listing) (net : network) (h : host) (e : exn) :
  failing net (loader_request (listing_loader l)) = Some e →
  (listing_page l net h).1 = Throw e.
Proof.
  intros Hfail. rewrite listing_page_spec. cbn [fst].
  destruct (failing_cases _ _ _ Hfail) as [-> | (res & -> & Hbody)].
  - reflexivity.
  - cbn [mbind completion_bind]. rewrite Hbody. reflexivity.
Qed.

Lemma failed_profile_stays_loading (w : widget) (net : network) (h : host)
    (e : exn) (evs : list event) :
  failing net profile_request = Some e →
  stuck (run net (widget_component w) evs
           (settle net (widget_component w) (mount (widget_component w) h)))
  ∧ env (run net (widget_component w) evs
           (settle net (widget_component w) (mount (widget_component w) h)))
    = reject e (issue profile_request h).
Proof.
  intros Hfail. apply failing_spec in Hfail.
  assert (stuck (settle net (widget_component w) (mount (widget_component w) h)))
    as Hstuck by (rewrite settle_mount, Hfail; repeat split).
  destruct (stuck_run w net evs _ Hstuck) as [Hfinal Henv].
  split; [exact Hfinal |]. rewrite Henv, settle_mount, Hfail. reflexivity.
Qed.

Lemma listing_view_not_array (l : listing) (v : value) :
  (∀ items, v ≠ Arr items) → ∃ p, listing_view l v = Throw (TypeError p).
Proof.
  intros Hv. destruct v; try (eexists; reflexivity).
  destruct (Hv items eq_refl).
Qed.

Lemma listing_view_shape (l : listing) (v : value) (n : node) :
  listing_view l v = Normal n → ∃ count, shape_of n = listing_shape l count.
Proof.
  destruct v; try discriminate. cbn [listing_view].
  destruct (forallb _ _); [| discriminate].
  intros [= <-]. eexists. apply shape_of_rows.
Qed.

Lemma listing_page_shape (l : listing) (net : network) (h : host) (n : node) :
  (listing_page l net h).1 = Normal n →
  ∃ count, shape_of n = listing_shape l count.
Proof.
  rewrite listing_page_spec. cbn [fst].
  destruct (net _) as [res |]; [| discriminate]. cbn [mbind completion_bind].
  destruct (body res) as [v |]; [| discriminate]. cbn [mbind completion_bind].
  apply listing_view_shape.
Qed.

Lemma component_shape (props : value) (n : node) :
  (PagesBlogs.Blogs props = Normal n →
   ∃ count, shape_of n = listing_shape PagesBlogsListing count)
  ∧ (PagesNews.News props = Normal n →
     ∃ count, shape_of n = listing_shape PagesNewsListing count).
Proof.
  split.
  - unfold PagesBlogs.Blogs.
    destruct (get props "blogs") as [v |]; [| discriminate].
    cbn [mbind completion_bind]. destruct v; try discriminate. cbn [call_map].
    erewrite map_cb_rows by (intros; reflexivity).
    destruct (forallb _ _); [| discriminate]. cbn [mbind completion_bind].
    intros [= <-]. eexists. apply (shape_of_rows PagesBlogsListing).
  - unfold PagesNews.News.
    destruct (get props "news") as [v |]; [| discriminate].
    cbn [mbind completion_bind]. destruct v; try discriminate. cbn [call_map].
    erewrite map_cb_rows by (intros; reflexivity).
    destruct (forallb _ _); [| discriminate]. cbn [mbind completion_bind].
    intros [= <-]. eexists. apply (shape_of_rows PagesNewsListing).
Qed.

Lemma rerenders_keep_loading (w : widget) (net : network) (k : nat) (c : client) :
  hooks c = {| cell := Some Null; effect_deps := Some (Some []) |} →
  screen c = Normal loading →
  screen (run net (widget_component w) (replicate k Rerender) c) = Normal loading.
Proof.
  revert c. induction k as [| k IH]; intros c Hhooks Hscreen; [exact Hscreen |].
  cbn [replicate run fold_left step]. apply IH.
  - unfold rerender. rewrite render_pass_again by (rewrite Hhooks; reflexivity).
    rewrite Hhooks. reflexivity.
  - unfold rerender. rewrite render_pass_again by (rewrite Hhooks; reflexivity).
    rewrite Hhooks. reflexivity.
Qed.

(** * Main results *)

(** C1. What a component renders is the fetched JSON, field by field and
    unchanged, and nothing but [id], [title], [body], [name] and [email] is
    read.  Whenever a list page renders a fetched array, its rows are, for
    each mapped element [x], the value of [x.id] as key and the value of
    [x.title] ([x.body] for [NewsPage]) as the only child; deleting every
    other field from the elements changes nothing in the outcome.  Once the
    user has been fetched, [Profile] and [ProfilePage] show the values of
    [user.name] and [user.email], and deleting every other field changes
    nothing either. *)
Theorem rendered_data_is_fetched_data :
  (∀ (l : listing) (net : network) (h : host) (res : response)
     (items : list value),
     net (loader_request (listing_loader l)) = Normal res →
     body res = Normal (Arr items) →
     forallb (λ x, negb (nullish x)) (shown l items) = true →
     (listing_page l net h).1
     = Normal (Element "div" None
                 [Element "h1" None [Text (listing_heading l)];
                  Many ((λ x, Element (listing_tag l) (Some (field x "id"))
                                [Expr (field x (listing_field l))])
                        <$> shown l items)])
     ∧ (listing_field l = if decide (l = AppNewsListing) then "body" else "title")
     ∧ ∀ (net' : network) (res' : response),
         net' (loader_request (listing_loader l)) = Normal res' →
         body res' = Normal (Arr (only ["id"; listing_field l] <$> items)) →
         (listing_page l net' h).1 = (listing_page l net h).1)
  ∧ (∀ (w : widget) (net : network) (h : host) (res : response) (user : value),
       net profile_request = Normal res →
       body res = Normal user →
       truthy user = true →
       screen (settle net (widget_component w) (mount (widget_component w) h))
       = Normal (Element "div" None
                   [Element "h1" None [Expr (field user "name")];
                    Element "p" None [Expr (field user "email")]])
       ∧ ∀ (net' : network) (res' : response),
           net' profile_request = Normal res' →
           body res' = Normal (only ["name"; "email"] user) →
           screen (settle net' (widget_component w) (mount (widget_component w) h))
           = screen (settle net (widget_component w) (mount (widget_component w) h))).
Proof.
  split.
  - intros l net h res items Hnet Hbody Hshown.
    rewrite (listing_page_array l net h res items Hnet Hbody), Hshown.
    split; [reflexivity |]. split; [destruct l; reflexivity |].
    intros net' res' Hnet' Hbody'.
    rewrite (listing_page_array l net' h res' _ Hnet' Hbody').
    rewrite shown_fmap, forallb_only, Hshown, rows_only. reflexivity.
  - intros w net h res user Hnet Hbody Huser.
    rewrite settle_mount, Hnet. cbn [mbind completion_bind]. rewrite Hbody.
    cbn [screen]. rewrite Huser. split; [reflexivity |].
    intros net' res' Hnet' Hbody'.
    rewrite settle_mount, Hnet'. cbn [mbind completion_bind]. rewrite Hbody'.
    cbn [screen]. rewrite truthy_only, Huser. unfold profile_markup.
    rewrite !field_only by set_solver. reflexivity.
Qed.

Lemma rendered_data_is_fetched_data_witness :
  (listing_page PagesBlogsListing (serve (Arr six_articles)) fresh).1
  = (listing_page PagesBlogsListing
       (serve (Arr (only ["id"; "title"] <$> six_articles))) fresh).1
  ∧ screen (settle (serve ada) PagesProfile.Profile
              (mount PagesProfile.Profile fresh))
    = Normal (Element "div" None
                [Element "h1" None [Expr (Str "Ada")];
                 Element "p" None [Expr (Str "ada@example.com")]]).
Proof.
  destruct rendered_data_is_fetched_data as [Hlist Hprofile]. split.
  - destruct (Hlist PagesBlogsListing (serve (Arr six_articles)) fresh
                {| status := 200; body := Normal (Arr six_articles) |}
                six_articles eq_refl eq_refl eq_refl) as (_ & _ & Honly).
    symmetry.
    apply (Honly (serve (Arr (only ["id"; "title"] <$> six_articles)))
             {| status := 200;
                body := Normal (Arr (only ["id"; "title"] <$> six_articles)) |});
      reflexivity.
  - destruct (Hprofile PagesProfileWidget (serve ada) fresh
                {| status := 200; body := Normal ada |} ada
                eq_refl eq_refl eq_refl) as [Hscreen _].
    cbn [widget_component] in Hscreen. rewrite Hscreen. vm_compute. reflexivity.
Defined.

(** C2. Every example performs exactly one fetch, to one fixed URL: each of
    the data functions [getStaticProps] (blogs and posts),
    [getServerSideProps], [getBlogs], [getNews] and [getPosts] appends
    exactly its own request to the requests of the host, whatever the
    network answers; so does every list page as a whole (for the Pages
    Router, the data function followed by the component, which itself
    cannot fetch); and mounting [Profile] or [ProfilePage] issues exactly
    the request for [users/1].  Running any of the eight examples once,
    a client component up to the settlement of its fetch, leaves exactly
    that one request behind, on every path: fetch rejected, body
    unparsable, rendering thrown or rendering returned. *)
Theorem one_request_per_execution :
  (∀ (d : loader) (net : network) (h : host),
     requests (loader_run d net h).2 = requests h ++ [loader_request d])
  ∧ (∀ (l : listing) (net : network) (h : host),
       requests (listing_page l net h).2
       = requests h ++ [loader_request (listing_loader l)])
  ∧ (∀ (w : widget) (h : host),
       requests (env (mount (widget_component w) h))
       = requests h ++ [profile_request])
  ∧ (∀ (s : snippet) (net : network) (h : host),
       requests (execute s net h).2 = requests h ++ [snippet_request s]).
Proof.
  split; [| split; [| split]].
  - intros d net h. rewrite loader_run_spec. reflexivity.
  - intros l net h. rewrite listing_page_spec. reflexivity.
  - intros w h. rewrite mount_spec. reflexivity.
  - intros [l | | w] net h; cbn [execute snippet_request].
    + rewrite listing_page_spec. reflexivity.
    + change (PagesPosts.getStaticProps net h)
        with (loader_run PagesPosts_getStaticProps net h).
      rewrite loader_run_spec. reflexivity.
    + rewrite settle_mount.
      destruct (res ← net profile_request; body res); reflexivity.
Qed.

(** C3. No example handles an error.  When the fetch is rejected or the
    body does not parse, every data function and every list page is
    rejected with that very exception; a response is used whatever its
    status is; a parsed body that is not an array, or a null among the
    mapped elements, makes the list page throw a [TypeError].  In a client
    component the rejection of the promise chain is left unhandled, the
    state stays [null], and the loading paragraph stays on screen through
    every later event: there is no markup for a failed fetch. *)
Theorem errors_propagate_unhandled :
  (∀ (d : loader) (net : network) (h : host) (e : exn),
     failing net (loader_request d) = Some e →
     (loader_run d net h).1 = Throw e)
  ∧ (∀ (l : listing) (net : network) (h : host) (e : exn),
       failing net (loader_request (listing_loader l)) = Some e →
       (listing_page l net h).1 = Throw e)
  ∧ (∀ (d : loader) (net net' : network) (h : host) (res res' : response),
       net (loader_request d) = Normal res →
       net' (loader_request d) = Normal res' →
       body res = body res' →
       (loader_run d net h).1 = (loader_run d net' h).1)
  ∧ (∀ (l : listing) (net : network) (h : host) (res : response) (v : value),
       net (loader_request (listing_loader l)) = Normal res →
       body res = Normal v →
       (∀ items, v ≠ Arr items) →
       ∃ p, (listing_page l net h).1 = Throw (TypeError p))
  ∧ (∀ (l : listing) (net : network) (h : host) (res : response)
       (items : list value),
       net (loader_request (listing_loader l)) = Normal res →
       body res = Normal (Arr items) →
       forallb (λ x, negb (nullish x)) (shown l items) = false →
       ∃ p, (listing_page l net h).1 = Throw (TypeError p))
  ∧ (∀ (w : widget) (net : network) (h : host) (e : exn) (evs : list event),
       failing net profile_request = Some e →
       let c := run net (widget_component w) evs
                  (settle net (widget_component w)
                     (mount (widget_component w) h)) in
       unhandled (env c) = unhandled h ++ [e]
       ∧ cell (hooks c) = Some Null
       ∧ screen c = Normal loading).
Proof.
  split; [| split; [| split; [| split; [| split]]]].
  - intros d net h e. apply loader_run_failing.
  - intros l net h e. apply listing_page_failing.
  - intros d net net' h res res' Hnet Hnet' Hbody.
    rewrite !loader_run_spec. cbn [fst]. rewrite Hnet, Hnet'.
    cbn [mbind completion_bind]. rewrite Hbody. reflexivity.
  - intros l net h res v Hnet Hbody Hv.
    rewrite listing_page_spec. cbn [fst]. rewrite Hnet.
    cbn [mbind completion_bind]. rewrite Hbody. cbn [mbind completion_bind].
    apply listing_view_not_array. exact Hv.
  - intros l net h res items Hnet Hbody Hnull.
    rewrite (listing_page_array l net h res items Hnet Hbody), Hnull.
    eexists. reflexivity.
  - intros w net h e evs Hfail c.
    destruct (failed_profile_stays_loading w net h e evs Hfail)
      as [(_ & Hcell & _ & Hscreen) Henv].
    subst c. rewrite Henv. repeat split; assumption.
Qed.

Lemma errors_propagate_unhandled_witness :
  (AppBlogs.getBlogs (unreachable (TypeError "Failed to fetch")) fresh).1
  = Throw (TypeError "Failed to fetch")
  ∧ (AppBlogs.BlogsPage (garbled (SyntaxError "Unexpected token")) fresh).1
    = Throw (SyntaxError "Unexpected token")
  ∧ (PagesBlogs.getStaticProps (serve (Arr six_articles)) fresh).1
    = (PagesBlogs.getStaticProps
         (λ _, Normal {| status := 500; body := Normal (Arr six_articles) |})
         fresh).1
  ∧ (∃ p, (AppPosts.PostsPage (serve (Obj ∅)) fresh).1 = Throw (TypeError p))
  ∧ (∃ p, (AppNews.NewsPage (serve (Arr [Null])) fresh).1 = Throw (TypeError p))
  ∧ unhandled
      (env (run (unreachable (AbortError "aborted")) AppProfile.ProfilePage
              [Rerender]
              (settle (unreachable (AbortError "aborted")) AppProfile.ProfilePage
                 (mount AppProfile.ProfilePage fresh))))
    = [AbortError "aborted"].
Proof.
  destruct errors_propagate_unhandled
    as (Hloader & Hpage & Hstatus & Hshape & Hnull & Hclient).
  split; [| split; [| split; [| split; [| split]]]].
  - apply (Hloader AppBlogs_getBlogs). reflexivity.
  - apply (Hpage AppBlogsListing). reflexivity.
  - apply (Hstatus PagesBlogs_getStaticProps _ _ fresh
             {| status := 200; body := Normal (Arr six_articles) |}
             {| status := 500; body := Normal (Arr six_articles) |});
      reflexivity.
  - apply (Hshape AppPostsListing (serve (Obj ∅)) fresh
             {| status := 200; body := Normal (Obj ∅) |} (Obj ∅));
      [reflexivity | reflexivity | discriminate].
  - apply (Hnull AppNewsListing (serve (Arr [Null])) fresh
             {| status := 200; body := Normal (Arr [Null]) |} [Null]);
      reflexivity.
  - apply (Hclient AppProfileWidget (unreachable (AbortError "aborted")) fresh
             (AbortError "aborted") [Rerender]).
    reflexivity.
Defined.

(** C4. A client component fetches once per mount and never again: after
    [Profile] or [ProfilePage] has been mounted, no sequence of re-renders
    and promise settlements (a settlement that fulfils calls [setUser] and
    renders again) adds a request to the one issued at the mount. *)
Theorem no_fetch_after_mount (w : widget) (net : network) (h : host)
    (evs : list event) :
  requests (env (run net (widget_component w) evs (mount (widget_component w) h)))
  = requests h ++ [profile_request].
Proof.
  destruct (run_steady w net evs _ (mount_steady w h)) as [_ Hreq].
  rewrite Hreq, mount_spec. reflexivity.
Qed.

(** C5 (amended). The only branch in any component is the loading check of
    the client components, and that check is on the truthiness of [user]:
    [Profile] and [ProfilePage] return the name-and-email markup when [user]
    is truthy and the loading paragraph when it is falsy ([null],
    [undefined], [false], [0], [NaN] or the empty string), and nothing else
    about [user] selects the markup.  The server-rendered components
    [Blogs], [News], [BlogsPage], [NewsPage] and [PostsPage] do not branch:
    whatever they are given, every rendering they return is the same
    heading followed by one row of the same form per mapped element. *)
Theorem branches_on_truthiness_only :
  (∀ (w : widget) (user : value),
     view w user = Normal (if truthy user then profile_markup user else loading))
  ∧ (∀ (w : widget) (user : value),
       ∃ n, view w user = Normal n
            ∧ shape_of n = if truthy user then profile_shape else loading_shape)
  ∧ (∀ (l : listing) (net : network) (h : host) (n : node),
       (listing_page l net h).1 = Normal n →
       ∃ count, shape_of n = listing_shape l count)
  ∧ (∀ (props : value) (n : node),
       PagesBlogs.Blogs props = Normal n →
       ∃ count, shape_of n = listing_shape PagesBlogsListing count)
  ∧ (∀ (props : value) (n : node),
       PagesNews.News props = Normal n →
       ∃ count, shape_of n = listing_shape PagesNewsListing count)
  ∧ (∀ (l : listing) (net : network) (h : host) (res : response)
       (items : list value),
       net (loader_request (listing_loader l)) = Normal res →
       body res = Normal (Arr items) →
       forallb (λ x, negb (nullish x)) (shown l items) = true →
       ∃ n, (listing_page l net h).1 = Normal n
            ∧ shape_of n = listing_shape l (length (shown l items))).
Proof.
  split; [| split; [| split; [| split; [| split]]]].
  - apply view_spec.
  - intros w user. rewrite view_spec. eexists. split; [reflexivity |].
    destruct (truthy user); reflexivity.
  - apply listing_page_shape.
  - intros props n. apply (component_shape props n).
  - intros props n. apply (component_shape props n).
  - intros l net h res items Hnet Hbody Hshown.
    rewrite (listing_page_array l net h res items Hnet Hbody), Hshown.
    eexists. split; [reflexivity | apply shape_of_rows].
Qed.

Lemma branches_on_truthiness_only_witness :
  (∃ count,
     shape_of (listing_markup AppBlogsListing
                 (listing_row AppBlogsListing <$> take 5 six_articles))
     = listing_shape AppBlogsListing count)
  ∧ (∃ count, shape_of (Element "div" None
                          [Element "h1" None [Text "Blogs"]; Many []])
              = listing_shape PagesBlogsListing count)
  ∧ (∃ count, shape_of (Element "div" None
                          [Element "h1" None [Text "News"]; Many []])
              = listing_shape PagesNewsListing count)
  ∧ ∃ n, (listing_page AppPostsListing (serve (Arr six_articles)) fresh).1 = Normal n
         ∧ shape_of n = listing_shape AppPostsListing 6.
Proof.
  destruct branches_on_truthiness_only
    as (_ & _ & Hpage & Hblogs & Hnews & Hcount).
  split; [| split; [| split]].
  - apply (Hpage AppBlogsListing (serve (Arr six_articles)) fresh).
    vm_compute. reflexivity.
  - apply (Hblogs (Obj {[ "blogs" := Arr [] ]})).
    unfold PagesBlogs.Blogs. rewrite get_singleton. reflexivity.
  - apply (Hnews (Obj {[ "news" := Arr [] ]})).
    unfold PagesNews.News. rewrite get_singleton. reflexivity.
  - apply (Hcount AppPostsListing (serve (Arr six_articles)) fresh
             {| status := 200; body := Normal (Arr six_articles) |} six_articles);
      reflexivity.
Defined.

(** C5, as stated, fails: the branch is not decided by whether [user] is
    null.  [false] and [true] are both non-null, yet [Profile] returns the
    loading paragraph for the first and the markup for the second. *)
Lemma branch_not_decided_by_null :
  ¬ (∀ (w : widget) (u1 u2 : value),
       (u1 = Null ↔ u2 = Null) →
       (view w u1 = Normal loading ↔ view w u2 = Normal loading)).
Proof.
  intros Hnull.
  destruct (Hnull PagesProfileWidget (Bool false) (Bool true)) as [Hsame _].
  - split; discriminate.
  - specialize (Hsame eq_refl). rewrite view_spec in Hsame. discriminate Hsame.
Qed.

(** C6. The ISR examples revalidate every 10 seconds and the SSG examples
    carry no revalidation setting: the Pages Router ISR [getStaticProps]
    returns an object with [revalidate] equal to 10 next to [props]; the App
    Router ISR [getPosts] passes [{ next: { revalidate: 10 } }] to [fetch];
    the SSG [getStaticProps] returns an object with [props] and no
    [revalidate], and the SSG [getBlogs] calls [fetch] without options. *)
Theorem isr_revalidates_every_10 :
  (∀ (net : network) (h : host) (res : response) (posts : value),
     net {| url := "https://api.example.com/posts"; init := Undefined |}
       = Normal res →
     body res = Normal posts →
     ∃ r, (PagesPosts.getStaticProps net h).1 = Normal r
          ∧ field r "revalidate" = Num 10
          ∧ field r "props" = Obj {[ "posts" := posts ]})
  ∧ (∀ (net : network) (h : host),
       requests (AppPosts.getPosts net h).2
       = requests h
         ++ [{| url := "https://api.example.com/posts";
                init := Obj {[ "next" := Obj {[ "revalidate" := Num 10 ]} ]} |}])
  ∧ (∀ (net : network) (h : host) (res : response) (blogs : value),
       net {| url := "https://api.example.com/blogs"; init := Undefined |}
         = Normal res →
       body res = Normal blogs →
       ∃ fields, (PagesBlogs.getStaticProps net h).1 = Normal (Obj fields)
                 ∧ fields !! "revalidate" = None
                 ∧ fields !! "props" = Some (Obj {[ "blogs" := blogs ]}))
  ∧ (∀ (net : network) (h : host),
       requests (AppBlogs.getBlogs net h).2
       = requests h
         ++ [{| url := "https://api.example.com/blogs"; init := Undefined |}]).
Proof.
  split; [| split; [| split]].
  - intros net h res posts Hnet Hbody.
    change (PagesPosts.getStaticProps net h)
      with (loader_run PagesPosts_getStaticProps net h).
    rewrite loader_run_spec. cbn [loader_request fst]. rewrite Hnet.
    cbn [mbind completion_bind]. rewrite Hbody. cbn [loader_result].
    eexists. split; [reflexivity |]. unfold field. split.
    + rewrite lookup_insert_ne by discriminate. rewrite lookup_singleton_eq.
      reflexivity.
    + rewrite lookup_insert_eq. reflexivity.
  - intros net h.
    change (AppPosts.getPosts net h) with (loader_run AppPosts_getPosts net h).
    rewrite loader_run_spec. reflexivity.
  - intros net h res blogs Hnet Hbody.
    change (PagesBlogs.getStaticProps net h)
      with (loader_run PagesBlogs_getStaticProps net h).
    rewrite loader_run_spec. cbn [loader_request fst]. rewrite Hnet.
    cbn [mbind completion_bind]. rewrite Hbody. cbn [loader_result].
    eexists. split; [reflexivity |]. split.
    + rewrite lookup_singleton_ne by discriminate. reflexivity.
    + rewrite lookup_singleton_eq. reflexivity.
  - intros net h.
    change (AppBlogs.getBlogs net h) with (loader_run AppBlogs_getBlogs net h).
    rewrite loader_run_spec. reflexivity.
Qed.

Lemma isr_revalidates_every_10_witness :
  (∃ r, (PagesPosts.getStaticProps (serve (Arr six_articles)) fresh).1 = Normal r
        ∧ field r "revalidate" = Num 10
        ∧ field r "props" = Obj {[ "posts" := Arr six_articles ]})
  ∧ (∃ fields,
       (PagesBlogs.getStaticProps (serve (Arr six_articles)) fresh).1
       = Normal (Obj fields)
       ∧ fields !! "revalidate" = None
       ∧ fields !! "props" = Some (Obj {[ "blogs" := Arr six_articles ]})).
Proof.
  destruct isr_revalidates_every_10 as (Hposts & _ & Hblogs & _).
  split.
  - apply (Hposts (serve (Arr six_articles)) fresh
             {| status := 200; body := Normal (Arr six_articles) |});
      reflexivity.
  - apply (Hblogs (serve (Arr six_articles)) fresh
             {| status := 200; body := Normal (Arr six_articles) |});
      reflexivity.
Defined.




(** C9 (amended). On the initial render the client components return
    exactly the paragraph 'Loading...': the state starts as [null] and the
    check comes before the main markup; re-renders before the fetch has
    settled return the same paragraph.  The name-and-email markup is
    returned if and only if [user] is truthy, and the loading paragraph if
    and only if it is falsy. *)
Theorem loading_until_truthy_user :
  (∀ (w : widget) (h : host),
     cell (hooks (mount (widget_component w) h)) = Some Null
     ∧ screen (mount (widget_component w) h)
       = Normal (Element "p" None [Text "Loading..."]))
  ∧ (∀ (w : widget) (net : network) (h : host) (k : nat),
       screen (run net (widget_component w) (replicate k Rerender)
                 (mount (widget_component w) h))
       = Normal (Element "p" None [Text "Loading..."]))
  ∧ (∀ (w : widget) (user : value),
       view w user = Normal (profile_markup user) ↔ truthy user = true)
  ∧ (∀ (w : widget) (user : value),
       view w user = Normal (Element "p" None [Text "Loading..."])
       ↔ truthy user = false).
Proof.
  split; [| split; [| split]].
  - intros w h. rewrite mount_spec. split; reflexivity.
  - intros w net h k. apply rerenders_keep_loading; rewrite mount_spec; reflexivity.
  - intros w user. rewrite view_spec.
    destruct (truthy user); split; try reflexivity; discriminate.
  - intros w user. rewrite view_spec.
    destruct (truthy user); split; try reflexivity; discriminate.
Qed.

Lemma loading_until_truthy_user_witness :
  view AppProfileWidget ada = Normal (profile_markup ada)
  ∧ view AppProfileWidget (Str "") = Normal (Element "p" None [Text "Loading..."]).
Proof.
  destruct loading_until_truthy_user as (_ & _ & Hmarkup & Hloading).
  split.
  - apply Hmarkup. reflexivity.
  - apply Hloading. reflexivity.
Defined.

(** C9, as stated, fails: when the endpoint answers with the JSON value
    [0], the state of [Profile] becomes [0], which is not null, and the
    component still returns the loading paragraph, not the markup. *)
Lemma zero_user_keeps_loading :
  let c := settle (serve (Num 0)) PagesProfile.Profile
             (mount PagesProfile.Profile fresh) in
  cell (hooks c) = Some (Num 0)
  ∧ Num 0 ≠ Null
  ∧ screen c = Normal (Element "p" None [Text "Loading..."])
  ∧ screen c ≠ Normal (profile_markup (Num 0)).
Proof.
  cbv zeta.
  change PagesProfile.Profile with (widget_component PagesProfileWidget).
  rewrite settle_mount. cbn. repeat split; discriminate.
Qed.

(** C10 (amended). List pages keep the order of the fetched array whenever
    they render it.  [map] itself is element-wise and in order: a [v.map(cb)]
    that returns has as many results as the array has elements and result
    [i] is [cb] of element [i].  A list page renders a fetched array exactly
    when none of the mapped elements is null or undefined; whenever it does,
    it has one row per mapped element (all elements, or the first five where
    [slice(0, 5)] applies), row [i] is built from mapped element [i], and
    mapped element [i] is element [i] of the fetched array. *)
Theorem rows_follow_array_order :
  (∀ (items : list value) (cb : value → completion node) (out : list node),
     call_map (Arr items) cb = Normal out →
     length out = length items
     ∧ ∀ i x, items !! i = Some x → ∃ y, out !! i = Some y ∧ cb x = Normal y)
  ∧ (∀ (l : listing) (net : network) (h : host) (res : response)
       (items : list value),
       net (loader_request (listing_loader l)) = Normal res →
       body res = Normal (Arr items) →
       ((∃ n, (listing_page l net h).1 = Normal n)
        ↔ forallb (λ x, negb (nullish x)) (shown l items) = true)
       ∧ ∀ n, (listing_page l net h).1 = Normal n →
           length (rows_of n) = length (shown l items)
           ∧ (∀ i, rows_of n !! i = listing_row l <$> shown l items !! i)
           ∧ (∀ i, (i < length (shown l items))%nat →
                   shown l items !! i = items !! i)).
Proof.
  split.
  - intros items cb out Hmap. cbn [call_map] in Hmap. split.
    + apply (map_cb_length _ _ _ Hmap).
    + intros i x Hi. apply (map_cb_lookup _ _ _ _ _ Hmap Hi).
  - intros l net h res items Hnet Hbody.
    rewrite (listing_page_array l net h res items Hnet Hbody).
    destruct (forallb _ (shown l items)) eqn:Hshown.
    2: { split; [split; [intros [n [=]] | discriminate] | intros n [=]]. }
    split; [split; [reflexivity | intros _; eexists; reflexivity] |].
    intros n [= <-]. cbn [rows_of listing_markup].
    split; [apply length_fmap |]. split; [intros i; apply list_lookup_fmap |].
    intros i Hi. rewrite shown_length in Hi. rewrite shown_lookup.
    destruct (truncating l); [| reflexivity]. cbn [andb].
    destruct (Nat.leb_spec 5 i); [lia | reflexivity].
Qed.

Lemma rows_follow_array_order_witness :
  (∃ y, [Expr (Str "a"); Expr (Str "b")] !! 1%nat = Some y
        ∧ Normal (Expr (Str "b")) = Normal y)
  ∧ (∃ n, (listing_page AppNewsListing (serve (Arr six_articles)) fresh).1 = Normal n)
  ∧ rows_of (listing_markup AppNewsListing
               (listing_row AppNewsListing <$> take 5 six_articles)) !! 1%nat
    = Some (Element "p" (Some (Num 2)) [Expr (Str "second")]).
Proof.
  destruct rows_follow_array_order as [Hmap Hpages]. split.
  - destruct (Hmap [Str "a"; Str "b"] (λ x, Normal (Expr x))
                [Expr (Str "a"); Expr (Str "b")] eq_refl) as [_ Hat].
    apply (Hat 1%nat (Str "b") eq_refl).
  - destruct (Hpages AppNewsListing (serve (Arr six_articles)) fresh
                {| status := 200; body := Normal (Arr six_articles) |}
                six_articles eq_refl eq_refl) as [Hrenders Hrows].
    split; [apply Hrenders; reflexivity |].
    destruct (Hrows _ eq_refl) as (_ & Hrow & _).
    rewrite Hrow. vm_compute. reflexivity.
Defined.

(** C10, as stated, fails: for the input array [[article; null]] of
    [PostsPage], [map] is applied to two elements, but the callback throws
    at the second and no list element is rendered at all, so the number of
    rendered elements is not the number of mapped input elements, and
    nothing is produced from the first element either. *)
Lemma null_element_breaks_row_count :
  length [article 1 "one" "first"; Null] = 2%nat
  ∧ (∃ p, (AppPosts.PostsPage (serve (Arr [article 1 "one" "first"; Null]))
             fresh).1 = Throw (TypeError p))
  ∧ (∀ n, (AppPosts.PostsPage (serve (Arr [article 1 "one" "first"; Null]))
             fresh).1 ≠ Normal n)
  ∧ (∀ out, call_map (Arr [article 1 "one" "first"; Null])
              (λ post, k ← get post "id";
                       title ← get post "title";
                       Normal (Element "p" (Some k) [Expr title]))
            ≠ Normal out).
Proof.
  split; [reflexivity |]. split; [eexists; reflexivity |].
  split; [intros n | intros out]; discriminate.
Qed.

(** * Further properties of the examples *)

Lemma get_unfold (v : value) (p : string) :
  get v p = if nullish v then Throw (TypeError p) else Normal (field v p).
Proof. reflexivity. Qed.

Lemma Blogs_spec (props : value) :
  PagesBlogs.Blogs props =
  if nullish props then Throw (TypeError "blogs")
  else listing_view PagesBlogsListing (field props "blogs").
Proof.
  unfold PagesBlogs.Blogs. rewrite (get_unfold props).
  destruct (nullish props); [reflexivity |].
  cbn [mbind completion_bind].
  destruct (field props "blogs"); try reflexivity. cbn [call_map].
  erewrite map_cb_rows by (intros; reflexivity).
  unfold listing_view, shown. cbn [truncating].
  destruct (forallb _ items); reflexivity.
Qed.

Lemma News_spec (props : value) :
  PagesNews.News props =
  if nullish props then Throw (TypeError "news")
  else listing_view PagesNewsListing (field props "news").
Proof.
  unfold PagesNews.News. rewrite (get_unfold props).
  destruct (nullish props); [reflexivity |].
  cbn [mbind completion_bind].
  destruct (field props "news"); try reflexivity. cbn [call_map].
  erewrite map_cb_rows by (intros; reflexivity).
  unfold listing_view, shown. cbn [truncating].
  destruct (forallb _ items); reflexivity.
Qed.

Lemma field_nullish (v : value) (p : string) :
  nullish v = true → field v p = Undefined.
Proof. destruct v; try discriminate; reflexivity. Qed.

Lemma listing_view_cases (l : listing) (v : value) :
  (∃ items, v = Arr items
            ∧ forallb (λ x, negb (nullish x)) (shown l items) = true
            ∧ listing_view l v
              = Normal (listing_markup l (listing_row l <$> shown l items)))
  ∨ ((∀ items, v = Arr items →
               forallb (λ x, negb (nullish x)) (shown l items) = false)
     ∧ ∃ p, listing_view l v = Throw (TypeError p)).
Proof.
  destruct v; try (right; split; [discriminate | eexists; reflexivity]).
  cbn [listing_view].
  destruct (forallb _ (shown l items)) eqn:Hall.
  - left. exists items. repeat split. exact Hall.
  - right. split; [| eexists; reflexivity].
    intros items' [= <-]. exact Hall.
Qed.

(** X1. The Pages Router components render exactly when the list they are
    given is an array without null or undefined elements: [Blogs] returns a
    rendering if and only if [props.blogs] is such an array ([News]:
    [props.news]), the rendering is then the heading and one row per
    element, and in every other case (no props, a missing [blogs] member, a
    value that is not an array, a null element) the component throws a
    [TypeError] and nothing else. *)
Theorem pages_components_render_iff_array (props : value) :
  ((∃ n, PagesBlogs.Blogs props = Normal n)
   ↔ ∃ items, field props "blogs" = Arr items
              ∧ forallb (λ x, negb (nullish x)) items = true)
  ∧ ((∃ n, PagesNews.News props = Normal n)
     ↔ ∃ items, field props "news" = Arr items
                ∧ forallb (λ x, negb (nullish x)) items = true)
  ∧ (∀ items, field props "blogs" = Arr items →
       forallb (λ x, negb (nullish x)) items = true →
       PagesBlogs.Blogs props
       = Normal (listing_markup PagesBlogsListing
                   (listing_row PagesBlogsListing <$> items)))
  ∧ (∀ items, field props "news" = Arr items →
       forallb (λ x, negb (nullish x)) items = true →
       PagesNews.News props
       = Normal (listing_markup PagesNewsListing
                   (listing_row PagesNewsListing <$> items)))
  ∧ (∀ e, PagesBlogs.Blogs props = Throw e ∨ PagesNews.News props = Throw e →
          ∃ p, e = TypeError p).
Proof.
  rewrite Blogs_spec, News_spec.
  destruct (nullish props) eqn:Hprops.
  - rewrite !(field_nullish props) by exact Hprops.
    split; [| split; [| split; [| split]]].
    + split; [intros [n [=]] | intros (items & [=] & _)].
    + split; [intros [n [=]] | intros (items & [=] & _)].
    + intros items [=].
    + intros items [=].
    + intros e [[= <-] | [= <-]]; eexists; reflexivity.
  - split; [| split; [| split; [| split]]].
    + destruct (listing_view_cases PagesBlogsListing (field props "blogs"))
        as [(items & -> & Hall & ->) | (Hnot & p & ->)].
      * split; [intros _; exists items; split; [reflexivity | exact Hall]
               | intros _; eexists; reflexivity].
      * split; [intros [n [=]] |].
        intros (items & Hv & Hall). pose proof (Hnot items Hv) as Hnone.
        unfold shown in Hnone. cbn [truncating] in Hnone. congruence.
    + destruct (listing_view_cases PagesNewsListing (field props "news"))
        as [(items & -> & Hall & ->) | (Hnot & p & ->)].
      * split; [intros _; exists items; split; [reflexivity | exact Hall]
               | intros _; eexists; reflexivity].
      * split; [intros [n [=]] |].
        intros (items & Hv & Hall). pose proof (Hnot items Hv) as Hnone.
        unfold shown in Hnone. cbn [truncating] in Hnone. congruence.
    + intros items -> Hall. cbn [listing_view]. unfold shown.
      cbn [truncating]. rewrite Hall. reflexivity.
    + intros items -> Hall. cbn [listing_view]. unfold shown.
      cbn [truncating]. rewrite Hall. reflexivity.
    + intros e [He | He].
      * destruct (listing_view_cases PagesBlogsListing (field props "blogs"))
          as [(items & _ & _ & Hok) | (_ & p & Hthrow)];
          rewrite He in *; [discriminate |].
        injection Hthrow as ->. eexists. reflexivity.
      * destruct (listing_view_cases PagesNewsListing (field props "news"))
          as [(items & _ & _ & Hok) | (_ & p & Hthrow)];
          rewrite He in *; [discriminate |].
        injection Hthrow as ->. eexists. reflexivity.
Qed.

Lemma pages_components_render_iff_array_witness :
  (∃ n, PagesBlogs.Blogs (Obj {[ "blogs" := Arr six_articles ]}) = Normal n)
  ∧ (∃ n, PagesNews.News (Obj {[ "news" := Arr [] ]}) = Normal n)
  ∧ (∃ p, TypeError "blogs" = TypeError p).
Proof.
  split; [| split].
  - apply (pages_components_render_iff_array (Obj {[ "blogs" := Arr six_articles ]})).
    exists six_articles. split; reflexivity.
  - apply (pages_components_render_iff_array (Obj {[ "news" := Arr [] ]})).
    exists []. split; reflexivity.
  - apply (pages_components_render_iff_array Null). left. reflexivity.
Defined.

Lemma rerender_mount (w : widget) (h : host) :
  rerender (widget_component w) (mount (widget_component w) h)
  = mount (widget_component w) h.
Proof.
  rewrite mount_spec. unfold rerender.
  rewrite render_pass_again by reflexivity. reflexivity.
Qed.

(** After the first settlement neither a re-render nor a further settlement
    changes anything. *)
Lemma step_settled (w : widget) (net : network) (h : host) (ev : event) :
  step net (widget_component w)
    (settle net (widget_component w) (mount (widget_component w) h)) ev
  = settle net (widget_component w) (mount (widget_component w) h).
Proof.
  rewrite settle_mount.
  destruct (res ← net profile_request; body res) as [user | e];
    destruct ev; cbn [step]; try reflexivity.
  - unfold rerender. rewrite render_pass_again by reflexivity. reflexivity.
  - unfold rerender. rewrite render_pass_again by reflexivity. reflexivity.
Qed.

Lemma run_settled (w : widget) (net : network) (h : host) (evs : list event) :
  run net (widget_component w) evs
    (settle net (widget_component w) (mount (widget_component w) h))
  = settle net (widget_component w) (mount (widget_component w) h).
Proof.
  induction evs as [| ev evs IH]; [reflexivity |].
  cbn [run fold_left]. rewrite step_settled. exact IH.
Qed.

(** X2. The whole state of a client component depends only on whether its
    fetch has settled: after any sequence of re-renders and settlements
    following the mount, [Profile] and [ProfilePage] are exactly in the
    state of the mount when no settlement has happened, and exactly in the
    state the first settlement produced otherwise.  Re-rendering is
    idempotent and the loaded (or failed) state is final. *)
Theorem client_state_is_mounted_or_settled (w : widget) (net : network)
    (h : host) (evs : list event) :
  run net (widget_component w) evs (mount (widget_component w) h)
  = if existsb is_settle evs
    then settle net (widget_component w) (mount (widget_component w) h)
    else mount (widget_component w) h.
Proof.
  induction evs as [| ev evs IH]; [reflexivity |].
  cbn [run fold_left existsb]. destruct ev; cbn [step is_settle orb].
  - rewrite rerender_mount. exact IH.
  - apply run_settled.
Qed.

(** X3. The render functions of the client components never throw,
    whatever their state holds: the check [!user] lets only truthy values
    reach [user.name] and [user.email], and reading a property of a truthy
    value cannot fail.  So for every hook memory (a number, a string, an
    array or an object in the state cell) [Profile] and [ProfilePage]
    return an element, which is either the loading paragraph or the profile
    markup over the value in the state cell. *)
Theorem client_never_throws (w : widget) (fb : fiber) :
  ∃ n, (widget_component w fb).1.1 = Normal n
       ∧ (n = loading ∨ n = profile_markup (default Null (cell fb))).
Proof.
  rewrite widget_render. cbn [fst]. eexists. split; [reflexivity |].
  destruct (truthy _); [right | left]; reflexivity.
Qed.

(** X4. A fetched value of the wrong shape is shown, not refused: when the
    endpoint answers with a truthy value that is not an object (a number, a
    non-empty string, [true], an array), or with an object that has neither
    [name] nor [email] (an error payload, say), whatever the status, the
    client component replaces the loading paragraph by the profile markup
    with [undefined] in both places, and records no error. *)
Theorem wrong_shaped_user_renders_blank (w : widget) (net : network) (h : host)
    (res : response) (user : value) :
  net profile_request = Normal res →
  body res = Normal user →
  truthy user = true →
  (∀ fields, user = Obj fields →
             fields !! "name" = None ∧ fields !! "email" = None) →
  let c := settle net (widget_component w) (mount (widget_component w) h) in
  screen c = Normal (Element "div" None
                       [Element "h1" None [Expr Undefined];
                        Element "p" None [Expr Undefined]])
  ∧ cell (hooks c) = Some user
  ∧ unhandled (env c) = unhandled h.
Proof.
  intros Hnet Hbody Huser Hshape c. subst c.
  rewrite settle_mount, Hnet. cbn [mbind completion_bind]. rewrite Hbody.
  cbn [screen hooks cell env]. rewrite Huser. unfold profile_markup.
  assert (∀ p, p = "name" ∨ p = "email" → field user p = Undefined) as Hfield.
  { intros p Hp. destruct user; try reflexivity. cbn [field].
    destruct (Hshape fields eq_refl) as [Hname Hemail].
    destruct Hp as [-> | ->]; [rewrite Hname | rewrite Hemail]; reflexivity. }
  rewrite !Hfield by auto. repeat split.
Qed.

Lemma wrong_shaped_user_renders_blank_witness :
  screen (settle (λ _, Normal {| status := 500;
                                  body := Normal (Obj {[ "error" := Str "down" ]}) |})
            PagesProfile.Profile (mount PagesProfile.Profile fresh))
  = Normal (Element "div" None
              [Element "h1" None [Expr Undefined];
               Element "p" None [Expr Undefined]]).
Proof.
  apply (wrong_shaped_user_renders_blank PagesProfileWidget
           (λ _, Normal {| status := 500;
                           body := Normal (Obj {[ "error" := Str "down" ]}) |})
           fresh
           {| status := 500; body := Normal (Obj {[ "error" := Str "down" ]}) |}
           (Obj {[ "error" := Str "down" ]})); try reflexivity.
  intros fields [= <-]. split; reflexivity.
Defined.

(** X5. A fetched value that is falsy ([null], [false], [0], the empty
    string) leaves a client component looking as if the fetch were still
    pending, for ever: the state holds the value, no request is pending, no
    error is recorded, and the loading paragraph stays on screen through
    every later event. *)
Theorem falsy_user_looks_pending (w : widget) (net : network) (h : host)
    (res : response) (user : value) (evs : list event) :
  net profile_request = Normal res →
  body res = Normal user →
  truthy user = false →
  let c := run net (widget_component w) evs
             (settle net (widget_component w) (mount (widget_component w) h)) in
  screen c = Normal (Element "p" None [Text "Loading..."])
  ∧ cell (hooks c) = Some user
  ∧ inflight c = []
  ∧ unhandled (env c) = unhandled h.
Proof.
  intros Hnet Hbody Huser c. subst c.
  rewrite run_settled, settle_mount, Hnet. cbn [mbind completion_bind].
  rewrite Hbody. cbn [screen hooks cell inflight env]. rewrite Huser.
  repeat split.
Qed.

Lemma falsy_user_looks_pending_witness :
  screen (run (serve Null) AppProfile.ProfilePage [Settle; Rerender; Settle]
            (settle (serve Null) AppProfile.ProfilePage
               (mount AppProfile.ProfilePage fresh)))
  = Normal (Element "p" None [Text "Loading..."]).
Proof.
  apply (falsy_user_looks_pending AppProfileWidget (serve Null) fresh
           {| status := 200; body := Normal Null |} Null
           [Settle; Rerender; Settle]); reflexivity.
Defined.

Lemma extend_extend (h : host) (rs rs' : list request) (es es' : list exn) :
  extend (extend h rs es) rs' es' = extend h (rs ++ rs') (es ++ es').
Proof. unfold extend. cbn. rewrite <- !app_assoc. reflexivity. Qed.

Lemma extend_nil (h : host) : extend h [] [] = h.
Proof. destruct h. unfold extend. cbn. rewrite !app_nil_r. reflexivity. Qed.

(** One example on any host: the outcome it has on a fresh host, its one
    request, and its rejection if it is a client component whose request
    fails. *)
Lemma execute_spec (s : snippet) (net : network) (h : host) :
  execute s net h =
  ((execute s net fresh).1,
   extend h [snippet_request s] (option_list (snippet_rejection net s))).
Proof.
  destruct s as [l | | w]; cbn [execute snippet_request snippet_rejection].
  - rewrite !listing_page_spec, issue_extend. reflexivity.
  - change (PagesPosts.getStaticProps net)
      with (loader_run PagesPosts_getStaticProps net).
    rewrite !loader_run_spec, issue_extend. reflexivity.
  - rewrite !settle_mount. unfold failing.
    destruct (res ← net profile_request; body res) as [user | e];
      cbn [screen env fst option_list].
    + rewrite issue_extend. reflexivity.
    + rewrite reject_issue_extend. reflexivity.
Qed.

(** X6. Running examples one after the other composes without any sharing:
    each example yields the outcome it yields alone on a fresh host, the
    host receives exactly one request per example, in order and repeated
    when two examples use the same URL (nothing is cached or deduplicated),
    and the only unhandled rejections are those of client components whose
    request failed.  Server-side examples never leave a rejection behind:
    theirs goes to the caller. *)
Theorem examples_compose (ss : list snippet) (net : network) (h : host) :
  (execute_all ss net h).1 = (λ s, (execute s net fresh).1) <$> ss
  ∧ requests (execute_all ss net h).2 = requests h ++ (snippet_request <$> ss)
  ∧ unhandled (execute_all ss net h).2
    = unhandled h ++ omap (snippet_rejection net) ss.
Proof.
  revert h. induction ss as [| s rest IH]; intros h.
  - cbn. rewrite !app_nil_r. repeat split.
  - cbn [execute_all]. rewrite execute_spec.
    destruct (IH (extend h [snippet_request s]
                    (option_list (snippet_rejection net s))))
      as (Hout & Hreq & Hrej).
    destruct (execute_all rest net _) as [os h2]. cbn [fst snd] in *.
    split; [| split].
    + cbn [fmap list_fmap]. rewrite Hout. reflexivity.
    + rewrite Hreq. cbn [extend requests fmap list_fmap].
      rewrite <- app_assoc. reflexivity.
    + rewrite Hrej. cbn [extend unhandled omap list_omap].
      rewrite <- app_assoc.
      destruct (snippet_rejection net s); reflexivity.
Qed.

Lemma forallb_take {A : Type} (f : A → bool) (n : nat) (l : list A) :
  forallb f l = true → forallb f (take n l) = true.
Proof.
  revert n. induction l as [| x rest IH]; intros [| n]; cbn; try reflexivity.
  intros [Hx Hrest]%andb_prop. rewrite Hx. cbn. apply IH. exact Hrest.
Qed.

(** X7. On the same answer of the blogs endpoint, the App Router page is a
    prefix of the Pages Router page and is more tolerant: whenever
    [getStaticProps] followed by [Blogs] renders, [BlogsPage] renders too,
    and its rows carry the keys and texts of the first five rows of [Blogs];
    a null element at index 5 or beyond makes the Pages Router page throw
    while the App Router page still renders. *)
Theorem app_blogs_is_prefix_of_pages_blogs (net : network) (h : host)
    (res : response) (items : list value) :
  net {| url := "https://api.example.com/blogs"; init := Undefined |}
    = Normal res →
  body res = Normal (Arr items) →
  (∀ n, (render_page PagesBlogs.getStaticProps PagesBlogs.Blogs net h).1 = Normal n →
        ∃ m, (AppBlogs.BlogsPage net h).1 = Normal m
             ∧ row_data <$> rows_of m = take 5 (row_data <$> rows_of n))
  ∧ (forallb (λ x, negb (nullish x)) (take 5 items) = true →
     forallb (λ x, negb (nullish x)) items = false →
     (∃ m, (AppBlogs.BlogsPage net h).1 = Normal m)
     ∧ ∃ p, (render_page PagesBlogs.getStaticProps PagesBlogs.Blogs net h).1
            = Throw (TypeError p)).
Proof.
  intros Hnet Hbody.
  change (render_page PagesBlogs.getStaticProps PagesBlogs.Blogs)
    with (listing_page PagesBlogsListing).
  change AppBlogs.BlogsPage with (listing_page AppBlogsListing).
  rewrite (listing_page_array PagesBlogsListing net h res items Hnet Hbody).
  rewrite (listing_page_array AppBlogsListing net h res items Hnet Hbody).
  unfold shown. cbn [truncating]. split.
  - intros n. destruct (forallb _ items) eqn:Hall; [| discriminate].
    intros [= <-]. rewrite (forallb_take _ 5 items Hall).
    eexists. split; [reflexivity |]. cbn [rows_of listing_markup].
    rewrite <- !list_fmap_compose, <- fmap_take. reflexivity.
  - intros Hfive Hall. rewrite Hfive, Hall.
    split; eexists; reflexivity.
Qed.

Lemma app_blogs_is_prefix_of_pages_blogs_witness :
  (∃ m, (AppBlogs.BlogsPage (serve (Arr six_articles)) fresh).1 = Normal m
        ∧ row_data <$> rows_of m
          = take 5 (row_data <$>
                    rows_of (listing_markup PagesBlogsListing
                               (listing_row PagesBlogsListing <$> six_articles))))
  ∧ (∃ m, (AppBlogs.BlogsPage (serve (Arr (six_articles ++ [Null]))) fresh).1
          = Normal m)
  ∧ ∃ p, (render_page PagesBlogs.getStaticProps PagesBlogs.Blogs
            (serve (Arr (six_articles ++ [Null]))) fresh).1
         = Throw (TypeError p).
Proof.
  split.
  - destruct (app_blogs_is_prefix_of_pages_blogs
                (serve (Arr six_articles)) fresh
                {| status := 200; body := Normal (Arr six_articles) |}
                six_articles eq_refl eq_refl) as [Hprefix _].
    apply (Hprefix (listing_markup PagesBlogsListing
                      (listing_row PagesBlogsListing <$> six_articles))).
    vm_compute. reflexivity.
  - apply (app_blogs_is_prefix_of_pages_blogs
             (serve (Arr (six_articles ++ [Null]))) fresh
             {| status := 200; body := Normal (Arr (six_articles ++ [Null])) |}
             (six_articles ++ [Null])); reflexivity.
Defined.

(** X8. The data functions validate nothing and lose nothing: whatever
    value the body parses to (an array, an object, a number, [null]), each
    of [getStaticProps], [getServerSideProps], [getBlogs], [getNews] and
    [getPosts] fulfils, and what its consumer reads back ([props.blogs],
    [props.news], [props.posts], or the result itself) is exactly that
    value; the [revalidate] member of the ISR result does not get in the
    way of [props]. *)
Theorem loaders_pass_body_through (d : loader) (net : network) (h : host)
    (res : response) (v : value) :
  net (loader_request d) = Normal res →
  body res = Normal v →
  ∃ r, (loader_run d net h).1 = Normal r ∧ loader_unwrap d r = Normal v.
Proof.
  intros Hnet Hbody. rewrite loader_run_spec. cbn [fst]. rewrite Hnet.
  cbn [mbind completion_bind]. rewrite Hbody. cbn [mbind completion_bind].
  eexists. split; [reflexivity |].
  destruct d; cbn [loader_result loader_unwrap];
    rewrite ?get_singleton; cbn [mbind completion_bind];
    rewrite ?get_singleton; reflexivity.
Qed.

Lemma loaders_pass_body_through_witness :
  ∃ r, (PagesPosts.getStaticProps (serve (Num 7)) fresh).1 = Normal r
       ∧ (props ← get r "props"; get props "posts") = Normal (Num 7).
Proof.
  apply (loaders_pass_body_through PagesPosts_getStaticProps (serve (Num 7)) fresh
           {| status := 200; body := Normal (Num 7) |} (Num 7)); reflexivity.
Defined.

(** X9. Elements without the fields are shown as empty rows, not refused:
    whenever a list page renders a fetched array, a mapped element that has
    no [id] gets the key [undefined], and one that is not an object at all
    (a number, a string, a boolean, a nested array) or is an object with
    neither [id] nor the shown field becomes a row with [undefined] as key
    and as only child. *)
Theorem fieldless_elements_render_blank (l : listing) (net : network) (h : host)
    (res : response) (items : list value) :
  net (loader_request (listing_loader l)) = Normal res →
  body res = Normal (Arr items) →
  forallb (λ x, negb (nullish x)) (shown l items) = true →
  ∃ n, (listing_page l net h).1 = Normal n
       ∧ (∀ i x, shown l items !! i = Some x →
                 (∀ fields, x = Obj fields → fields !! "id" = None) →
                 ∃ children,
                   rows_of n !! i
                   = Some (Element (listing_tag l) (Some Undefined) children))
       ∧ (∀ i x, shown l items !! i = Some x →
                 (∀ fields, x = Obj fields →
                            fields !! "id" = None
                            ∧ fields !! listing_field l = None) →
                 rows_of n !! i = Some (blank_row (listing_tag l))).
Proof.
  intros Hnet Hbody Hshown.
  rewrite (listing_page_array l net h res items Hnet Hbody), Hshown.
  eexists. split; [reflexivity |]. cbn [rows_of listing_markup].
  assert (∀ x p, (∀ fields, x = Obj fields → fields !! p = None) →
                 field x p = Undefined) as Hfield.
  { intros x p Hx. destruct x; try reflexivity. cbn [field].
    rewrite (Hx fields eq_refl). reflexivity. }
  split.
  - intros i x Hi Hx. rewrite list_lookup_fmap, Hi.
    unfold listing_row, row. cbn [fmap option_fmap option_map].
    rewrite (Hfield x "id" Hx). eexists. reflexivity.
  - intros i x Hi Hx. rewrite list_lookup_fmap, Hi.
    unfold listing_row, row, blank_row. cbn [fmap option_fmap option_map].
    rewrite (Hfield x "id"), (Hfield x (listing_field l)); [reflexivity | |];
      intros fields Hobj; apply (Hx fields Hobj).
Qed.

Lemma fieldless_elements_render_blank_witness :
  ∃ n, (listing_page AppNewsListing (serve (Arr [Num 3; Str "x"])) fresh).1
       = Normal n
       ∧ rows_of n !! 1%nat = Some (blank_row "p").
Proof.
  destruct (fieldless_elements_render_blank AppNewsListing
              (serve (Arr [Num 3; Str "x"])) fresh
              {| status := 200; body := Normal (Arr [Num 3; Str "x"]) |}
              [Num 3; Str "x"] eq_refl eq_refl eq_refl)
    as (n & Hn & _ & Hblank).
  exists n. split; [exact Hn |].
  apply (Hblank 1%nat (Str "x")); [reflexivity | discriminate].
Defined.

(** X10. An empty array is rendered as the heading alone, and only an empty
    array is: whenever a list page renders a fetched array, it has no rows
    if and only if the array is empty.  There is no placeholder for an empty
    list, and cutting to five elements never hides a non-empty one. *)
Theorem no_rows_iff_empty_array (l : listing) (net : network) (h : host)
    (res : response) (items : list value) (n : node) :
  net (loader_request (listing_loader l)) = Normal res →
  body res = Normal (Arr items) →
  (listing_page l net h).1 = Normal n →
  (rows_of n = [] ↔ items = [])
  ∧ (items = [] →
     n = Element "div" None [Element "h1" None [Text (listing_heading l)]; Many []]).
Proof.
  intros Hnet Hbody.
  rewrite (listing_page_array l net h res items Hnet Hbody).
  destruct (forallb _ _); [| discriminate]. intros [= <-].
  cbn [rows_of listing_markup]. split.
  - split.
    + intros Hrows. apply fmap_nil_inv in Hrows. unfold shown in Hrows.
      destruct (truncating l); [| exact Hrows].
      destruct items; [reflexivity | discriminate Hrows].
    + intros ->. unfold shown. destruct (truncating l); reflexivity.
  - intros ->. unfold shown. destruct (truncating l); reflexivity.
Qed.

Lemma no_rows_iff_empty_array_witness :
  rows_of (listing_markup PagesNewsListing []) = [].
Proof.
  apply (no_rows_iff_empty_array PagesNewsListing (serve (Arr [])) fresh
           {| status := 200; body := Normal (Arr []) |} []
           (listing_markup PagesNewsListing []));
    reflexivity.
Defined.
